(** * Blog-website/main.py: the Flask blog, its store and its route handlers

    A shallow embedding of [main.py].  The three SQLAlchemy models are
    records, the database is a record of three tables kept in storage
    order, and a view function is a computation in a state-and-exception
    monad over the request-visible state (committed tables, the unit of
    work of [db.session], the Flask session cookie, the flashed messages
    and the SMTP traffic).  Whatever lives outside [main.py] (the
    [forms] module, werkzeug's password hashing, the operator's mail
    credentials) is gathered in the record [Externals]. *)

From Stdlib Require Import ZArith List Lia.
From stdpp Require Import base option list strings gmap.

Local Open Scope string_scope.
Local Open Scope Z_scope.
Local Open Scope list_scope.

(** ** The models (main.py, lines 62-95) *)

Module User.
Record t := mk {
  id : Z;              (* Integer, primary_key *)
  email : string;      (* String(100), unique *)
  password : string;   (* String(100) *)
  name : string        (* String(100) *)
}.
End User.

Module BlogPost.
Record t := mk {
  id : Z;              (* Integer, primary_key *)
  author_id : Z;       (* ForeignKey users.id *)
  title : string;      (* unique, nullable=False *)
  subtitle : string;
  date : string;
  body : string;
  img_url : string
}.

(** The four columns a form writes; [author] is set through the
    relationship and lands in [author_id]. *)
Inductive attr := Title | Subtitle | Body | ImgUrl.

Definition setattr (a : attr) (v : string) (p : t) : t :=
  match a with
  | Title => mk (id p) (author_id p) v (subtitle p) (date p) (body p) (img_url p)
  | Subtitle => mk (id p) (author_id p) (title p) v (date p) (body p) (img_url p)
  | Body => mk (id p) (author_id p) (title p) (subtitle p) (date p) v (img_url p)
  | ImgUrl => mk (id p) (author_id p) (title p) (subtitle p) (date p) (body p) v
  end.

Definition set_author (uid : Z) (p : t) : t :=
  mk (id p) uid (title p) (subtitle p) (date p) (body p) (img_url p).
End BlogPost.

Module Comment.
Record t := mk {
  id : Z;                  (* Integer, primary_key *)
  author_id : Z;           (* ForeignKey users.id *)
  post_id : option Z;      (* ForeignKey blog_posts.id; [None] is SQL NULL *)
  text : string
}.

Definition set_post_id (v : option Z) (c : t) : t :=
  mk (id c) (author_id c) v (text c).
End Comment.

(** [post_id: Mapped[str] = mapped_column(Integer, ForeignKey(...))]: the
    annotation is not [Optional], no [nullable=] is given, so the column
    is created NOT NULL. *)
Definition comments_post_id_nullable : bool := false.

(** ** The store: three tables in storage order *)

Record Store := mkStore {
  users : list User.t;
  blog_posts : list BlogPost.t;
  comments : list Comment.t
}.

Definition with_users (us : list User.t) (s : Store) : Store :=
  mkStore us (blog_posts s) (comments s).
Definition with_blog_posts (ps : list BlogPost.t) (s : Store) : Store :=
  mkStore (users s) ps (comments s).
Definition with_comments (cs : list Comment.t) (s : Store) : Store :=
  mkStore (users s) (blog_posts s) cs.

(** [db.session.get(Model, pk)] *)
Definition get_User (s : Store) (pk : Z) : option User.t :=
  List.find (λ u, bool_decide (User.id u = pk)) (users s).
Definition get_BlogPost (s : Store) (pk : Z) : option BlogPost.t :=
  List.find (λ p, bool_decide (BlogPost.id p = pk)) (blog_posts s).

(** [db.select(User).where(User.email == e)] followed by [.scalar()]:
    the first matching row, or [None]. *)
Definition select_User_by_email (s : Store) (e : string) : option User.t :=
  List.find (λ u, bool_decide (User.email u = e)) (users s).

(** An integer primary key left to the database: one more than the
    largest key of the table, 1 on an empty table. *)
Definition next_id (ids : list Z) : Z := 1 + fold_right Z.max 0 ids.

(** ** The unit of work of [db.session] *)

Inductive Change :=
  | AddUser (name email password : string)
  | AddBlogPost (title subtitle body img_url : string) (author_id : Z) (date : string)
  | SetPostAttr (post_id : Z) (a : BlogPost.attr) (v : string)
  | SetPostAuthor (post_id : Z) (author_id : Z)
  | DeleteBlogPost (post_id : Z).

Definition update_post (pk : Z) (f : BlogPost.t → BlogPost.t) (s : Store) : Store :=
  with_blog_posts
    (map (λ p, if bool_decide (BlogPost.id p = pk) then f p else p) (blog_posts s)) s.

Definition references (pk : Z) (c : Comment.t) : Prop := Comment.post_id c = Some pk.

Global Instance references_dec pk c : Decision (references pk c).
Proof. unfold references. apply _. Defined.

(** One statement of the flush.  [None] is an [IntegrityError] raised by
    the database; otherwise the new tables and the primary keys the
    statement assigned.

    - the INSERTs check the UNIQUE constraints of [users.email] and
      [blog_posts.title];
    - an UPDATE of a title checks it against the other rows;
    - [BlogPost.comments] is a [relationship] with no [cascade]: when the
      parent is deleted the ORM first de-associates the children by
      writing NULL into their [post_id], which the NOT NULL column
      refuses, and only then deletes the parent row. *)
Definition flush_one (c : Change) (s : Store) : option (Store * list Z) :=
  match c with
  | AddUser name email password =>
      if bool_decide (email ∈ map User.email (users s)) then None
      else
        let pk := next_id (map User.id (users s)) in
        Some (with_users (users s ++ [User.mk pk email password name]) s, [pk])
  | AddBlogPost title subtitle body img_url author_id date =>
      if bool_decide (title ∈ map BlogPost.title (blog_posts s)) then None
      else
        let pk := next_id (map BlogPost.id (blog_posts s)) in
        Some (with_blog_posts
                (blog_posts s ++ [BlogPost.mk pk author_id title subtitle date body img_url]) s,
              [pk])
  | SetPostAttr pk a v =>
      match a with
      | BlogPost.Title =>
          if bool_decide
               (v ∈ map BlogPost.title (filter (λ p, BlogPost.id p ≠ pk) (blog_posts s)))
          then None
          else Some (update_post pk (BlogPost.setattr a v) s, [])
      | _ => Some (update_post pk (BlogPost.setattr a v) s, [])
      end
  | SetPostAuthor pk uid => Some (update_post pk (BlogPost.set_author uid) s, [])
  | DeleteBlogPost pk =>
      let children := filter (references pk) (comments s) in
      let orphaned :=
        map (λ c, if bool_decide (references pk c) then Comment.set_post_id None c else c)
            (comments s) in
      if bool_decide (children = []) || comments_post_id_nullable then
        Some (with_blog_posts (filter (λ p, BlogPost.id p ≠ pk) (blog_posts s))
                (with_comments orphaned s), [])
      else None
  end.

(** The whole flush, in the order the changes were recorded. *)
Fixpoint flush (cs : list Change) (s : Store) : option (Store * list Z) :=
  match cs with
  | [] => Some (s, [])
  | c :: cs' =>
      match flush_one c s with
      | None => None
      | Some (s1, k1) =>
          match flush cs' s1 with
          | None => None
          | Some (s2, k2) => Some (s2, k1 ++ k2)
          end
      end
  end.

(** ** Requests, responses and what the process keeps between them *)

Inductive Method := GET | POST.

(** [flask.request]: the method and the submitted fields
    ([request.form], looked up by field name). *)
Record Request := mkRequest {
  method : Method;
  form : gmap string string
}.

(** A [CreatePostForm] after it was bound to the request: the [.data] of
    its four fields and the outcome of [validate_on_submit()]. *)
Module PostForm.
Record t := mk {
  title : string;
  subtitle : string;
  img_url : string;
  body : string;
  validate_on_submit : bool
}.
End PostForm.

(** The two forms that [main.py] only hands to a template. *)
Record FlaskForm := mkFlaskForm {
  data : gmap string string;
  validates : bool
}.

Inductive TemplateForm :=
  | post_form (f : PostForm.t)
  | plain_form (f : FlaskForm)
  | no_form.

Inductive Url := url_for (endpoint : string) (post_id : option Z).

Inductive Response :=
  | html (template : string) (form : TemplateForm) (is_edit : bool)
  | redirect (location : Url)
  | error_page (status : Z).

(** What a view function can raise.  [abort(n)] and a missing key of
    [request.form] are HTTP exceptions; the others are not, and Flask
    (with [debug=False]) answers them with status 500. *)
Inductive Exn :=
  | HTTPException (code : Z)
  | IntegrityError
  | UnmappedInstanceError
  | OverflowError
  | UnicodeEncodeError
  | SMTPException.

Inductive SMTPCommand :=
  | SMTP_connect (host : string) (port : Z)
  | SMTP_starttls
  | SMTP_login (user password : string)
  | SMTP_sendmail (from_addr to_addrs msg : string)
  | SMTP_quit.

(** What a request finds outside the process: the calendar date already
    formatted by [strftime("%B %d, %Y")], the random bytes the salt is
    drawn from, and which commands the mail relay accepts. *)
Record World := mkWorld {
  today : string;
  urandom : string;
  relay_accepts : SMTPCommand → bool
}.

(** What [main.py] imports and does not define. *)
Record Externals := mkExternals {
  (* werkzeug.security: password, method, salt_length, entropy *)
  generate_password_hash : string → string → nat → string → string;
  (* werkzeug.security: pwhash, password *)
  check_password_hash : string → string → bool;
  (* forms.py: the keyword defaults (the post being edited) and the request *)
  CreatePostForm : option BlogPost.t → Request → PostForm.t;
  RegisterUser : Request → FlaskForm;
  LoginUser : Request → FlaskForm;
  (* os.getenv("MY_EMAIL"), os.getenv("MY_PASSWORD") *)
  my_email : string;
  my_pass : string
}.

Record State := mkState {
  db : Store;                          (* the committed tables *)
  pending : list Change;               (* db.session: changes not yet flushed *)
  session_user_id : option Z;          (* session["_user_id"] of Flask-Login *)
  flashes : list string;               (* flash() *)
  smtp_log : list SMTPCommand          (* commands sent to the relay, oldest first *)
}.

Definition with_db (s : Store) (st : State) : State :=
  mkState s (pending st) (session_user_id st) (flashes st) (smtp_log st).
Definition with_pending (cs : list Change) (st : State) : State :=
  mkState (db st) cs (session_user_id st) (flashes st) (smtp_log st).
Definition with_session_user_id (u : option Z) (st : State) : State :=
  mkState (db st) (pending st) u (flashes st) (smtp_log st).
Definition with_flashes (fs : list string) (st : State) : State :=
  mkState (db st) (pending st) (session_user_id st) fs (smtp_log st).
Definition with_smtp_log (l : list SMTPCommand) (st : State) : State :=
  mkState (db st) (pending st) (session_user_id st) (flashes st) l.

(** ** The monad of view functions *)

Inductive Result (A : Type) :=
  | Ok (a : A)
  | Raise (e : Exn).
Arguments Ok {A} a.
Arguments Raise {A} e.

Definition M (A : Type) : Type := State → Result A * State.

Global Instance M_ret : MRet M := λ A a st, (Ok a, st).
Global Instance M_bind : MBind M := λ A B f m st,
  match m st with
  | (Ok a, st') => f a st'
  | (Raise e, st') => (Raise e, st')
  end.

Definition raise {A} (e : Exn) : M A := λ st, (Raise e, st).
Definition abort {A} (code : Z) : M A := raise (HTTPException code).
Definition gets {A} (f : State → A) : M A := λ st, (Ok (f st), st).
Definition modify (f : State → State) : M unit := λ st, (Ok (), f st).

Definition flash (message : string) : M unit :=
  modify (λ st, with_flashes (flashes st ++ [message]) st).

(** The integers an sqlite column holds: 64 bits, signed. *)
Definition sqlite_integer (n : Z) : bool := (- 2 ^ 63 <=? n) && (n <? 2 ^ 63).

(** The Python value a key arrives as: the [int] that the [<int:post_id>]
    converter of a route parsed, or the [str] that Flask-Login keeps in
    the session and hands to the user loader. *)
Inductive KeyType := py_int | py_str.

(** Whether the key can be bound to the [SELECT] of the lookup.  The
    sqlite driver refuses an [int] outside the 64-bit range with
    [OverflowError]; a [str] is bound as text and compared by value. *)
Definition binds (k : KeyType) (pk : Z) : bool :=
  match k with
  | py_int => sqlite_integer pk
  | py_str => true
  end.

(** [db.get_or_404(Model, pk)].  The key of a stored row is one that
    sqlite holds, so only a key that names no row can fail to bind. *)
Definition get_or_404 {A} (k : KeyType) (get : Store → Z → option A) (pk : Z) : M A :=
  s ← gets db;
  match get s pk with
  | Some row => mret row
  | None => if binds k pk then abort 404 else raise OverflowError
  end.

Definition db_session_add (c : Change) : M unit :=
  modify (λ st, with_pending (pending st ++ [c]) st).

(** [db.session.commit()]: flush the unit of work in one transaction.
    On success the tables are replaced and the keys given to the added
    objects are returned (the ORM writes them into the objects); on an
    [IntegrityError] the tables are as before. *)
Definition db_session_commit : M (list Z) := λ st,
  match flush (pending st) (db st) with
  | Some (s', keys) => (Ok keys, with_pending [] (with_db s' st))
  | None => (Raise IntegrityError, st)
  end.

(** [login_user(user)] *)
Definition login_user (user_id : Z) : M unit :=
  modify (with_session_user_id (Some user_id)).

(** main.py, lines 37-39 *)
Definition load_user (user_id : Z) : M User.t :=
  get_or_404 py_str get_User user_id.

(** Flask-Login's [current_user]: the anonymous user ([None]) when the
    session holds no identifier, otherwise whatever the user loader
    gives. *)
Definition current_user : M (option User.t) :=
  sid ← gets session_user_id;
  match sid with
  | None => mret None
  | Some user_id => u ← load_user user_id; mret (Some u)
  end.

(** main.py, lines 104-111 *)
Definition admin_only {A} (f : A → M Response) : A → M Response := λ args,
  cu ← current_user;
  match cu with
  | Some _ => f args
  | None => abort 403
  end.

(** [render_template(name, ...)].  Flask-Login registers a context
    processor that hands [current_user] to every template, so the
    session is resolved before the page is produced. *)
Definition render_template (template : string) (form : TemplateForm) (is_edit : bool)
  : M Response :=
  current_user ;;
  mret (html template form is_edit).

(** One command of the SMTP conversation. *)
Definition smtp (w : World) (c : SMTPCommand) : M unit := λ st,
  let st' := with_smtp_log (smtp_log st ++ [c]) st in
  if relay_accepts w c then (Ok (), st') else (Raise SMTPException, st').

(** The text that [str.encode("ascii")] accepts: every character below
    128.  A string of the model is the UTF-8 encoding of the Python
    [str], in which exactly the ASCII characters are single bytes below
    128. *)
Fixpoint is_ascii (s : string) : bool :=
  match s with
  | EmptyString => true
  | String (Ascii.Ascii _ _ _ _ _ _ _ high) s' => negb high && is_ascii s'
  end.

(** [connect.sendmail(from_addr, to_addrs, msg)] with a [str] message:
    smtplib encodes the message as ASCII before it addresses the relay,
    so a message that is not ASCII raises and nothing is sent. *)
Definition sendmail (w : World) (from_addr to_addrs msg : string) : M unit :=
  if is_ascii msg then smtp w (SMTP_sendmail from_addr to_addrs msg)
  else raise UnicodeEncodeError.

(** [with smtplib.SMTP(host, port=port) as connect: body]: nothing runs
    when the connection fails.  Once it is open, [__exit__] sends QUIT on
    the way out, whether the body returned or raised; a relay that does
    not answer it with 221 makes [__exit__] raise, which takes the place
    of what the body returned or raised.  ([relay_accepts w SMTP_quit]
    is false for such an answer; a relay that has gone away counts as
    accepting, since [__exit__] passes over the disconnection.) *)
Definition with_SMTP {A} (w : World) (host : string) (port : Z) (body : M A) : M A := λ st,
  match smtp w (SMTP_connect host port) st with
  | (Raise e, st1) => (Raise e, st1)
  | (Ok _, st1) =>
      let (r, st2) := body st1 in
      match smtp w SMTP_quit st2 with
      | (Ok _, st3) => (r, st3)
      | (Raise e, st3) => (Raise e, st3)
      end
  end.

(** The end of a request: an exception becomes its error page, and the
    database session is removed, which drops what was not committed. *)
Definition dispatch (view : M Response) (st : State) : Response * State :=
  let (r, st') := view st in
  (match r with
   | Ok resp => resp
   | Raise (HTTPException code) => error_page code
   | Raise _ => error_page 500
   end,
   with_pending [] st').

Definition LF : string := String (Ascii.ascii_of_nat 10) EmptyString.

(** ** The view functions *)

Section Views.
Context (ext : Externals) (world : World) (request : Request).

(** [request.form[key]] *)
Definition request_form (key : string) : M string :=
  match form request !! key with
  | Some v => mret v
  | None => abort 400
  end.

(** main.py, lines 123-140 *)
Definition register : M Response :=
  match method request with
  | POST =>
      email ← request_form "email";
      user ← gets (λ st, select_User_by_email (db st) email);
      match user with
      | Some _ =>
          flash "You've already signed up with that email, log in instead!" ;;
          mret (redirect (url_for "login" None))
      | None =>
          name ← request_form "name";
          email ← request_form "email";
          password ← request_form "password";
          db_session_add
            (AddUser name email
               (generate_password_hash ext password "pbkdf2" 8 (urandom world))) ;;
          keys ← db_session_commit;
          match keys with
          | new_user_id :: _ =>
              login_user new_user_id ;;
              mret (redirect (url_for "get_all_posts" None))
          | [] => raise UnmappedInstanceError
          end
      end
  | GET =>
      let form := RegisterUser ext request in
      render_template "register.html" (plain_form form) false
  end.

(** main.py, lines 144-160 *)
Definition login : M Response :=
  match method request with
  | POST =>
      email ← request_form "email";
      user ← gets (λ st, select_User_by_email (db st) email);
      match user with
      | Some user =>
          password ← request_form "password";
          if check_password_hash ext (User.password user) password then
            login_user (User.id user) ;;
            mret (redirect (url_for "get_all_posts" None))
          else
            flash "Wrong password! Please try again!" ;;
            mret (redirect (url_for "login" None))
      | None =>
          flash "Email does not exist, please try again." ;;
          mret (redirect (url_for "login" None))
      end
  | GET =>
      let form := LoginUser ext request in
      render_template "login.html" (plain_form form) false
  end.

(** main.py, lines 191-210 *)
Definition add_new_post : M Response :=
  cu ← current_user;
  match cu with
  | Some user =>
      let form := CreatePostForm ext None request in
      if PostForm.validate_on_submit form then
        db_session_add
          (AddBlogPost (PostForm.title form) (PostForm.subtitle form)
             (PostForm.body form) (PostForm.img_url form)
             (User.id user) (today world)) ;;
        db_session_commit ;;
        mret (redirect (url_for "get_all_posts" None))
      else render_template "make-post.html" (post_form form) false
  | None =>
      flash "You need to login or register to comment." ;;
      mret (redirect (url_for "login" None))
  end.

(** main.py, lines 216-233: the function under the decorator *)
Definition edit_post_wrapped (post_id : Z) : M Response :=
  post ← get_or_404 py_int get_BlogPost post_id;
  let edit_form := CreatePostForm ext (Some post) request in
  if PostForm.validate_on_submit edit_form then
    db_session_add (SetPostAttr post_id BlogPost.Title (PostForm.title edit_form)) ;;
    db_session_add (SetPostAttr post_id BlogPost.Subtitle (PostForm.subtitle edit_form)) ;;
    db_session_add (SetPostAttr post_id BlogPost.ImgUrl (PostForm.img_url edit_form)) ;;
    cu ← current_user;
    match cu with
    | Some user => db_session_add (SetPostAuthor post_id (User.id user))
    | None => raise UnmappedInstanceError
    end ;;
    db_session_add (SetPostAttr post_id BlogPost.Body (PostForm.body edit_form)) ;;
    db_session_commit ;;
    mret (redirect (url_for "show_post" (Some (BlogPost.id post))))
  else render_template "make-post.html" (post_form edit_form) true.

(** main.py, lines 214-216 *)
Definition edit_post : Z → M Response := admin_only edit_post_wrapped.

(** main.py, lines 239-243: the function under the decorator *)
Definition delete_post_wrapped (post_id : Z) : M Response :=
  post_to_delete ← get_or_404 py_int get_BlogPost post_id;
  db_session_add (DeleteBlogPost (BlogPost.id post_to_delete)) ;;
  db_session_commit ;;
  mret (redirect (url_for "get_all_posts" None)).

(** main.py, lines 237-239 *)
Definition delete_post : Z → M Response := admin_only delete_post_wrapped.

(** The text handed to [sendmail] (main.py, lines 261-264). *)
Definition contact_msg (name phone message : string) : string :=
  "Subject:New Message " +:+ LF +:+ LF +:+
  "Name: " +:+ name +:+ LF +:+
  "Phone no.: " +:+ phone +:+ LF +:+
  "Message: " +:+ message.

(** main.py, lines 253-266.  The [redirect(...)] inside the [with]
    block is not returned, so a POST falls through to the template. *)
Definition contact : M Response :=
  match method request with
  | POST =>
      with_SMTP world "smtp.gmail.com" 587
        (smtp world SMTP_starttls ;;
         smtp world (SMTP_login (my_email ext) (my_pass ext)) ;;
         name ← request_form "name";
         phone ← request_form "phone";
         message ← request_form "message";
         sendmail world (my_email ext) (my_email ext)
           (contact_msg name phone message)) ;;
      render_template "contact.html" no_form false
  | GET => render_template "contact.html" no_form false
  end.
End Views.

(** ** The vocabulary of the statements *)

(** *** Tables *)

(** The rows of [users] that carry a given email. *)
Definition users_with_email (s : Store) (e : string) : list User.t :=
  filter (λ u, User.email u = e) (users s).

(** The UNIQUE constraint of [users.email]. *)
Definition unique_emails (s : Store) : Prop := NoDup (map User.email (users s)).

(** The rows of [blog_posts] that carry a given title. *)
Definition posts_with_title (s : Store) (t : string) : list BlogPost.t :=
  filter (λ p, BlogPost.title p = t) (blog_posts s).

(** The UNIQUE constraint of [blog_posts.title]. *)
Definition unique_titles (s : Store) : Prop := NoDup (map BlogPost.title (blog_posts s)).

(** The titles of the rows other than [pk]. *)
Definition other_titles (s : Store) (pk : Z) : list string :=
  map BlogPost.title (filter (λ p, BlogPost.id p ≠ pk) (blog_posts s)).

(** The tables once the row [pk] of [blog_posts] is deleted. *)
Definition without_post (pk : Z) (s : Store) : Store :=
  with_blog_posts (filter (λ p, BlogPost.id p ≠ pk) (blog_posts s)) s.

(** *** Registration and login *)

(** The three messages of [register] and [login]. *)
Definition flash_duplicate_email : string :=
  "You've already signed up with that email, log in instead!".
Definition flash_no_such_user : string := "Email does not exist, please try again.".
Definition flash_wrong_password : string := "Wrong password! Please try again!".

(** The row [register] inserts: the next key, the submitted email and
    name, and the hash of the submitted password. *)
Definition new_user (ext : Externals) (world : World) (st : State)
    (email password name : string) : User.t :=
  User.mk (next_id (map User.id (users (db st)))) email
    (generate_password_hash ext password "pbkdf2" 8 (urandom world)) name.

(** The state a successful registration leaves behind. *)
Definition registered (ext : Externals) (world : World) (st : State)
    (email password name : string) : State :=
  let row := new_user ext world st email password name in
  mkState (with_users (users (db st) ++ [row]) (db st)) []
    (Some (User.id row)) (flashes st) (smtp_log st).

(** The same deployment with another [RegisterUser] form class. *)
Definition with_RegisterUser (R : Request → FlaskForm) (ext : Externals) : Externals :=
  mkExternals (generate_password_hash ext) (check_password_hash ext)
    (CreatePostForm ext) R (LoginUser ext) (my_email ext) (my_pass ext).

(** *** Posts *)

(** The INSERT [add_new_post] records for a valid form. *)
Definition new_post_change (ext : Externals) (world : World) (request : Request)
    (u : User.t) : Change :=
  let form := CreatePostForm ext None request in
  AddBlogPost (PostForm.title form) (PostForm.subtitle form) (PostForm.body form)
    (PostForm.img_url form) (User.id u) (today world).

(** The row an edit leaves behind: id and date of the old row, the four
    form fields, and the editor as author. *)
Definition edited (uid : Z) (f : PostForm.t) (p : BlogPost.t) : BlogPost.t :=
  BlogPost.mk (BlogPost.id p) uid (PostForm.title f) (PostForm.subtitle f)
    (BlogPost.date p) (PostForm.body f) (PostForm.img_url f).

(** The assignments of [edit_post], in source order. *)
Definition edit_changes (pk uid : Z) (f : PostForm.t) : list Change :=
  [SetPostAttr pk BlogPost.Title (PostForm.title f);
   SetPostAttr pk BlogPost.Subtitle (PostForm.subtitle f);
   SetPostAttr pk BlogPost.ImgUrl (PostForm.img_url f);
   SetPostAuthor pk uid;
   SetPostAttr pk BlogPost.Body (PostForm.body f)].

(** *** Mail and pages *)

(** The commands a POST to [contact] addresses to the relay before the
    mail. *)
Definition opening (ext : Externals) : list SMTPCommand :=
  [SMTP_connect "smtp.gmail.com" 587;
   SMTP_starttls;
   SMTP_login (my_email ext) (my_pass ext)].

(** What [contact] sets out to say inside the [with] block: the mail is
    part of it only when its text can be encoded. *)
Definition attempted (ext : Externals) (name phone message : string) : list SMTPCommand :=
  opening ext ++
  (if is_ascii (contact_msg name phone message)
   then [SMTP_sendmail (my_email ext) (my_email ext) (contact_msg name phone message)]
   else []).

(** What the relay gets to hear of a list of commands: all of them up to
    the first one it refuses, that one included. *)
Fixpoint heard (w : World) (cs : list SMTPCommand) : list SMTPCommand :=
  match cs with
  | [] => []
  | c :: cs' => if relay_accepts w c then c :: heard w cs' else [c]
  end.

(** The status that ends a request whose lookup by an [int] key found
    no row: 404, or 500 when the key is not one that sqlite can hold. *)
Definition not_found (pk : Z) : Z := if sqlite_integer pk then 404 else 500.

(** The session, if there is one, names a stored user. *)
Definition session_resolves (st : State) : Prop :=
  ∀ uid, session_user_id st = Some uid → is_Some (get_User (db st) uid).

(** What becomes of a page once the template has asked for
    [current_user]. *)
Definition page (st : State) (r : Response) : Response :=
  match session_user_id st with
  | None => r
  | Some uid =>
      match get_User (db st) uid with
      | Some _ => r
      | None => error_page 404
      end
  end.

(** ** The remaining views and the URL map *)

(** The keyword arguments a view hands to its template besides the
    form: [all_posts=posts] of [index.html], [post=requested_post] of
    [post.html]. *)
Inductive TemplateArgs :=
  | args_none
  | args_all_posts (all_posts : list BlogPost.t)
  | args_post (post : BlogPost.t).

Definition Rendered : Type := Response * TemplateArgs.

(** [BlogPost.comments] (main.py, line 84): the comments whose [post_id]
    is the key of the post. *)
Definition BlogPost_comments (s : Store) (p : BlogPost.t) : list Comment.t :=
  filter (references (BlogPost.id p)) (comments s).

(** [db.session.add(new_comment)] and [db.session.commit()] of
    [show_post]: the unit of work is flushed and the comment is inserted
    under the next key.  The [comments] table has no UNIQUE column and
    its NOT NULL columns are all given, so the INSERT itself cannot
    fail. *)
Definition db_session_add_comment_commit (text : string) (author_id post_id : Z) : M Z :=
  λ st,
  match flush (pending st) (db st) with
  | Some (s', _) =>
      let pk := next_id (map Comment.id (comments s')) in
      (Ok pk,
       with_pending []
         (with_db (with_comments (comments s' ++ [Comment.mk pk author_id (Some post_id) text]) s')
            st))
  | None => (Raise IntegrityError, st)
  end.

(** [logout_user()]: Flask-Login looks up the user who is leaving and
    then drops the identifier from the session. *)
Definition logout_user : M unit :=
  current_user ;;
  modify (with_session_user_id None).

(** main.py, lines 115-119 *)
Definition get_all_posts : M Rendered :=
  posts ← gets (λ st, blog_posts (db st));
  page ← render_template "index.html" no_form false;
  mret (page, args_all_posts posts).

(** main.py, lines 164-167 *)
Definition logout : M Response :=
  logout_user ;;
  mret (redirect (url_for "get_all_posts" None)).

(** main.py, lines 247-249 *)
Definition about : M Response :=
  render_template "about.html" no_form false.

Section ShowPost.
Context (request : Request) (CommentForm : Request → FlaskForm).

(** main.py, lines 171-187.  [CommentForm] is the fourth class of
    [forms.py]. *)
Definition show_post (post_id : Z) : M Rendered :=
  requested_post ← get_or_404 py_int get_BlogPost post_id;
  let comment_form := CommentForm request in
  if validates comment_form then
    cu ← current_user;
    match cu with
    | None =>
        flash "You need to login or register to comment." ;;
        mret (redirect (url_for "login" None), args_none)
    | Some user =>
        text ← request_form request "comment";
        db_session_add_comment_commit text (User.id user) (BlogPost.id requested_post) ;;
        page ← render_template "post.html" (plain_form comment_form) false;
        mret (page, args_post requested_post)
    end
  else
    page ← render_template "post.html" (plain_form comment_form) false;
    mret (page, args_post requested_post).
End ShowPost.

(** The ten rules of the URL map ([@app.route]).  [<int:post_id>] only
    matches a non-negative number. *)
Inductive Endpoint :=
  | at_get_all_posts
  | at_register
  | at_login
  | at_logout
  | at_show_post (post_id : N)
  | at_add_new_post
  | at_edit_post (post_id : N)
  | at_delete_post (post_id : N)
  | at_about
  | at_contact.

Global Instance Method_eq_dec : EqDecision Method.
Proof. solve_decision. Defined.

(** The [methods=] of each rule; a rule without it answers GET only. *)
Definition methods (e : Endpoint) : list Method :=
  match e with
  | at_register | at_login | at_show_post _ => [POST; GET]
  | at_add_new_post | at_edit_post _ | at_contact => [GET; POST]
  | at_get_all_posts | at_logout | at_delete_post _ | at_about => [GET]
  end.

(** What is sent back for a view that rendered a template. *)
Definition response_of (view : M Rendered) : M Response :=
  r ← view;
  mret r.1.

Section App.
Context (ext : Externals) (CommentForm : Request → FlaskForm).

Definition view_function (world : World) (request : Request) (e : Endpoint) : M Response :=
  match e with
  | at_get_all_posts => response_of get_all_posts
  | at_register => register ext world request
  | at_login => login ext request
  | at_logout => logout
  | at_show_post post_id => response_of (show_post request CommentForm (Z.of_N post_id))
  | at_add_new_post => add_new_post ext world request
  | at_edit_post post_id => edit_post ext request (Z.of_N post_id)
  | at_delete_post post_id => delete_post (Z.of_N post_id)
  | at_about => about
  | at_contact => contact ext world request
  end.

(** One request: a method the rule does not list is answered with 405
    before any view runs. *)
Definition full_dispatch_request (world : World) (request : Request) (e : Endpoint)
  : State → Response * State :=
  dispatch
    (if bool_decide (method request ∈ methods e)
     then view_function world request e
     else abort 405).

(** One visit of some browser: the identifier its session cookie holds,
    what the world looks like at that moment, the request and the rule
    it matches. *)
Record Visit := mkVisit {
  cookie : option Z;
  visit_world : World;
  visit_request : Request;
  visit_endpoint : Endpoint
}.

Definition serve (v : Visit) (st : State) : State :=
  (full_dispatch_request (visit_world v) (visit_request v) (visit_endpoint v)
     (with_session_user_id (cookie v) st)).2.

Definition serve_all (vs : list Visit) (st : State) : State :=
  fold_left (λ st v, serve v st) vs st.
End App.

(** The state after [db.create_all()] on a new database. *)
Definition initial : State := mkState (mkStore [] [] []) [] None [] [].

(** *** What the tables must satisfy *)

(** Primary keys and UNIQUE columns. *)
Record constraints (s : Store) : Prop := mkConstraints {
  user_keys : NoDup (map User.id (users s));
  user_emails : unique_emails s;
  post_keys : NoDup (map BlogPost.id (blog_posts s));
  post_titles : unique_titles s;
  comment_keys : NoDup (map Comment.id (comments s))
}.

(** Foreign keys: authors are stored users, and every comment names a
    stored post. *)
Record foreign_keys (s : Store) : Prop := mkForeignKeys {
  post_authors : ∀ p, p ∈ blog_posts s → is_Some (get_User s (BlogPost.author_id p));
  comment_authors : ∀ c, c ∈ comments s → is_Some (get_User s (Comment.author_id c));
  comment_posts :
    ∀ c, c ∈ comments s → ∃ pk, Comment.post_id c = Some pk ∧ is_Some (get_BlogPost s pk)
}.

(** A recorded change names a stored user wherever it names an author. *)
Definition change_ok (s : Store) (c : Change) : Prop :=
  match c with
  | AddBlogPost _ _ _ _ author_id _ => is_Some (get_User s author_id)
  | SetPostAuthor _ author_id => is_Some (get_User s author_id)
  | _ => True
  end.

(** The three ways a request can leave the tables: as they were, after a
    commit of such changes, or with one more comment by a stored user on
    a stored post. *)
Inductive step_db (s : Store) : Store → Prop :=
  | step_same : step_db s s
  | step_flush (cs : list Change) (ks : list Z) (s' : Store) :
      Forall (change_ok s) cs → flush cs s = Some (s', ks) → step_db s s'
  | step_comment (text : string) (author_id post_id : Z) :
      is_Some (get_User s author_id) →
      is_Some (get_BlogPost s post_id) →
      step_db s
        (with_comments
           (comments s ++
            [Comment.mk (next_id (map Comment.id (comments s))) author_id (Some post_id) text])
           s).

(** *** Words for what follows *)

(** The flash message of [show_post] and [add_new_post] for a caller
    who is not logged in. *)
Definition flash_login_required : string := "You need to login or register to comment.".

(** One row under [update_post]. *)
Definition updated (pk : Z) (f : BlogPost.t → BlogPost.t) (p : BlogPost.t) : BlogPost.t :=
  if bool_decide (BlogPost.id p = pk) then f p else p.

(** ** A sample deployment, for the examples below *)

Module Sample.
Definition field (req : Request) (key : string) : string :=
  default "" (form req !! key).

(** Stand-ins for the imported pieces: a hash that only tags its
    input, and a post form that wants a non-empty title on a POST. *)
Definition ext : Externals :=
  mkExternals
    (λ password method salt_length entropy,
       method +:+ "$" +:+ entropy +:+ "$" +:+ password)
    (λ pwhash password, bool_decide (pwhash = "pbkdf2$salt$" +:+ password))
    (λ defaults req,
       PostForm.mk (field req "title") (field req "subtitle")
         (field req "img_url") (field req "body")
         (match method req with
          | POST => bool_decide (field req "title" ≠ "")
          | GET => false
          end))
    (λ req, mkFlaskForm (form req) false)
    (λ req, mkFlaskForm (form req) false)
    "owner@x.com" "app-token".

Definition world : World := mkWorld "April 03, 2025" "salt" (λ _, true).

Definition user_a : User.t := User.mk 1 "a@x.com" "pbkdf2$salt$pw1" "A".
Definition post_1 : BlogPost.t :=
  BlogPost.mk 1 1 "Hello World" "S1" "April 03, 2025" "B1" "http://x/img.png".
Definition post_2 : BlogPost.t :=
  BlogPost.mk 2 1 "Second" "S2" "April 04, 2025" "B2" "http://x/img2.png".
Definition comment_1 : Comment.t := Comment.mk 1 1 (Some 1) "Nice!".

Definition state (s : Store) (sid : option Z) : State := mkState s [] sid [] [].

Definition empty_db : Store := mkStore [] [] [].
Definition one_post : Store := mkStore [user_a] [post_1] [].
Definition two_posts : Store := mkStore [user_a] [post_1; post_2] [].
Definition commented : Store := mkStore [user_a] [post_1] [comment_1].

Definition get : Request := mkRequest GET ∅.
Definition post (fields : list (string * string)) : Request :=
  mkRequest POST (list_to_map fields).
End Sample.

(** A valid form that gives post 2 the title of post 1. *)
Definition retitle_second : Request :=
  Sample.post [("title", "Hello World"); ("subtitle", "S"); ("body", "B");
               ("img_url", "http://x/i.png")].

(** A valid form with a title nobody has. *)
Definition rewrite_first : Request :=
  Sample.post [("title", "Hello Again"); ("subtitle", "S"); ("body", "B");
               ("img_url", "http://x/i.png")].

Definition contact_request : Request :=
  Sample.post [("name", "N"); ("phone", "555"); ("message", "hello")].

(** A relay that rejects the operator's credentials. *)
Definition rejecting_world : World :=
  mkWorld "April 03, 2025" "salt"
    (λ c, match c with SMTP_login _ _ => false | _ => true end).

(** The two bytes of the letter e with an acute accent. *)
Definition e_acute : string :=
  String (Ascii.ascii_of_nat 195) (String (Ascii.ascii_of_nat 169) EmptyString).

(** The contact form with an accented letter in the message. *)
Definition accented_contact_request : Request :=
  Sample.post [("name", "N"); ("phone", "555"); ("message", "caf" +:+ e_acute)].

(** The contact form without its message. *)
Definition short_contact_request : Request :=
  Sample.post [("name", "N"); ("phone", "555")].

(** A relay that answers QUIT with something other than 221. *)
Definition lingering_world : World :=
  mkWorld "April 03, 2025" "salt"
    (λ c, match c with SMTP_quit => false | _ => true end).

(** The largest key sqlite holds, and the first integer beyond it. *)
Definition max_rowid : Z := 2 ^ 63 - 1.
Definition beyond_rowid : Z := 2 ^ 63.

(** *** A second user, a second form and a few visits *)

Module Scenario.
(** A comment form that validates whatever is POSTed. *)
Definition comment_form : Request → FlaskForm :=
  λ req, mkFlaskForm (form req) (match method req with POST => true | GET => false end).

Definition user_b : User.t := User.mk 2 "b@x.com" "pbkdf2$salt$pw2" "B".

Definition second_post : BlogPost.t :=
  BlogPost.mk 2 1 "Second" "S2" "April 03, 2025" "B2" "http://x/img2.png".

Definition with_b : Store := mkStore [Sample.user_a; user_b] [Sample.post_1] [].

Definition new_post : Request :=
  Sample.post [("title", "Second"); ("subtitle", "S2"); ("body", "B2");
               ("img_url", "http://x/img2.png")].

Definition comment : Request := Sample.post [("comment", "Nice!")].

Definition credentials (password : string) : Request :=
  Sample.post [("email", "b@x.com"); ("password", password); ("name", "B")].

(** A valid form that changes everything of post 2 but its title. *)
Definition keep_title : Request :=
  Sample.post [("title", "Second"); ("subtitle", "new"); ("body", "new body");
               ("img_url", "http://x/new.png")].

(** B registers and writes a post, A comments on it, B deletes A's
    post. *)
Definition visits : list Visit :=
  [mkVisit None Sample.world (credentials "pw2") at_register;
   mkVisit (Some 2) Sample.world new_post at_add_new_post;
   mkVisit (Some 1) Sample.world comment (at_show_post 2);
   mkVisit (Some 2) Sample.world Sample.get (at_delete_post 1)].
End Scenario.

(** ** Running the monad *)

Lemma bind_run {A B} (m : M A) (f : A → M B) (st : State) :
  (m ≫= f) st =
  match m st with
  | (Ok a, st') => f a st'
  | (Raise e, st') => (Raise e, st')
  end.
Proof. reflexivity. Qed.

Lemma ret_run {A} (a : A) (st : State) : (mret a : M A) st = (Ok a, st).
Proof. reflexivity. Qed.

Ltac run :=
  repeat first
    [ rewrite bind_run
    | rewrite ret_run
    | progress unfold gets, modify, flash, abort, raise, db_session_add, login_user ].

(** ** Who is asking *)

Section CurrentUser.
Variable st : State.

Lemma current_user_anonymous :
  session_user_id st = None → current_user st = (Ok None, st).
Proof. intros Hsid. unfold current_user. run. now rewrite Hsid. Qed.

Lemma current_user_loaded (uid : Z) (u : User.t) :
  session_user_id st = Some uid → get_User (db st) uid = Some u →
  current_user st = (Ok (Some u), st).
Proof.
  intros Hsid Hget. unfold current_user, load_user, get_or_404.
  run. rewrite Hsid. run. now rewrite Hget.
Qed.

Lemma current_user_stale (uid : Z) :
  session_user_id st = Some uid → get_User (db st) uid = None →
  current_user st = (Raise (HTTPException 404), st).
Proof.
  intros Hsid Hget. unfold current_user, load_user, get_or_404.
  run. rewrite Hsid. run. now rewrite Hget.
Qed.
End CurrentUser.

Lemma get_User_spec (s : Store) (uid : Z) (u : User.t) :
  get_User s uid = Some u → u ∈ users s ∧ User.id u = uid.
Proof.
  unfold get_User. intros H. apply find_some in H as [Hin Hid].
  split; [now apply list_elem_of_In | now apply bool_decide_eq_true in Hid].
Qed.

Lemma get_BlogPost_spec (s : Store) (pk : Z) (p : BlogPost.t) :
  get_BlogPost s pk = Some p → p ∈ blog_posts s ∧ BlogPost.id p = pk.
Proof.
  unfold get_BlogPost. intros H. apply find_some in H as [Hin Hid].
  split; [now apply list_elem_of_In | now apply bool_decide_eq_true in Hid].
Qed.

Lemma admin_only_anonymous {A} (f : A → M Response) (args : A) (st : State) :
  session_user_id st = None →
  admin_only f args st = (Raise (HTTPException 403), st).
Proof.
  intros Hsid. unfold admin_only. run.
  now rewrite (current_user_anonymous st Hsid).
Qed.

Lemma admin_only_authenticated {A} (f : A → M Response) (args : A) (st : State) uid u :
  session_user_id st = Some uid → get_User (db st) uid = Some u →
  admin_only f args st = f args st.
Proof.
  intros Hsid Hget. unfold admin_only. run.
  now rewrite (current_user_loaded st uid u Hsid Hget).
Qed.

Lemma admin_only_stale {A} (f : A → M Response) (args : A) (st : State) uid :
  session_user_id st = Some uid → get_User (db st) uid = None →
  admin_only f args st = (Raise (HTTPException 404), st).
Proof.
  intros Hsid Hget. unfold admin_only. run.
  now rewrite (current_user_stale st uid Hsid Hget).
Qed.

Lemma get_or_404_missing {A} (k : KeyType) (get : Store → Z → option A) (pk : Z) (st : State) :
  get (db st) pk = None → binds k pk = true →
  get_or_404 k get pk st = (Raise (HTTPException 404), st).
Proof. intros H Hk. unfold get_or_404. run. now rewrite H, Hk. Qed.

Lemma get_or_404_overflow {A} (k : KeyType) (get : Store → Z → option A) (pk : Z) (st : State) :
  get (db st) pk = None → binds k pk = false →
  get_or_404 k get pk st = (Raise OverflowError, st).
Proof. intros H Hk. unfold get_or_404. run. now rewrite H, Hk. Qed.

Lemma get_or_404_found {A} (k : KeyType) (get : Store → Z → option A) (pk : Z) (st : State)
    (row : A) :
  get (db st) pk = Some row → get_or_404 k get pk st = (Ok row, st).
Proof. intros H. unfold get_or_404. run. now rewrite H. Qed.

(** ** The access gate *)

(** C5. A request to a gated route ([edit_post], [delete_post], or any
    view under [admin_only]) that carries no session ends with status 403
    whatever the wrapped function is, and leaves the tables, the session
    and the flashed messages as they were, so the post a gated delete
    names is still stored; for a caller whose session resolves to a
    stored user the decorated view is the wrapped function. *)
Theorem admin_only_gate (ext : Externals) (request : Request) (post_id : Z) (st : State) :
  (session_user_id st = None →
     (∀ A (f : A → M Response) (args : A),
        dispatch (admin_only f args) st = (error_page 403, with_pending [] st))
     ∧ dispatch (edit_post ext request post_id) st = (error_page 403, with_pending [] st)
     ∧ dispatch (delete_post post_id) st = (error_page 403, with_pending [] st)
     ∧ get_BlogPost (db (snd (dispatch (delete_post post_id) st))) post_id
       = get_BlogPost (db st) post_id)
  ∧ (∀ uid u, session_user_id st = Some uid → get_User (db st) uid = Some u →
       (∀ A (f : A → M Response) (args : A), admin_only f args st = f args st)
       ∧ edit_post ext request post_id st = edit_post_wrapped ext request post_id st
       ∧ delete_post post_id st = delete_post_wrapped post_id st).
Proof.
  split.
  - intros Hsid.
    assert (Hgate : ∀ A (f : A → M Response) (args : A),
               dispatch (admin_only f args) st = (error_page 403, with_pending [] st)).
    { intros A f args. unfold dispatch. now rewrite admin_only_anonymous. }
    repeat split.
    + exact Hgate.
    + apply Hgate.
    + apply Hgate.
    + unfold delete_post. now rewrite Hgate.
  - intros uid u Hsid Hget. repeat split.
    + intros A f args. now apply admin_only_authenticated with uid u.
    + now apply admin_only_authenticated with uid u.
    + now apply admin_only_authenticated with uid u.
Qed.

Lemma admin_only_gate_witness :
  dispatch (delete_post 1) (Sample.state Sample.one_post None)
    = (error_page 403, Sample.state Sample.one_post None)
  ∧ delete_post 1 (Sample.state Sample.one_post (Some 1))
    = delete_post_wrapped 1 (Sample.state Sample.one_post (Some 1)).
Proof.
  split.
  - apply (admin_only_gate Sample.ext Sample.get 1 (Sample.state Sample.one_post None)).
    reflexivity.
  - apply (admin_only_gate Sample.ext Sample.get 1 (Sample.state Sample.one_post (Some 1)))
      with 1 Sample.user_a; reflexivity.
Defined.

(** ** Editing a post that is not there *)

Lemma edit_post_missing_anonymous :
  get_BlogPost (db (Sample.state Sample.empty_db None)) 1 = None
  ∧ dispatch (edit_post Sample.ext Sample.get 1) (Sample.state Sample.empty_db None)
    = (error_page 403, Sample.state Sample.empty_db None).
Proof. split; reflexivity. Qed.

(** C2, as stated, fails: with no session and an empty [blog_posts]
    table, [edit_post 1] answers 403, not 404. *)
Lemma edit_post_missing_not_always_404 :
  ¬ (∀ (ext : Externals) (request : Request) (st : State) (post_id : Z),
       get_BlogPost (db st) post_id = None →
       fst (dispatch (edit_post ext request post_id) st) = error_page 404).
Proof.
  intros Hclaim.
  specialize (Hclaim Sample.ext Sample.get (Sample.state Sample.empty_db None) 1).
  destruct edit_post_missing_anonymous as [Hnone Hrun].
  specialize (Hclaim Hnone). rewrite Hrun in Hclaim. discriminate Hclaim.
Qed.

(** C2, amended.  For a [post_id] that names no stored post, [edit_post]
    answers 403 when there is no session (the gate runs before the
    lookup), and 404 when the session resolves to a stored user and the
    id is one that sqlite can hold, that is, below 2^63; the tables are
    untouched either way. *)
Theorem edit_post_missing (ext : Externals) (request : Request) (st : State) (post_id : Z) :
  get_BlogPost (db st) post_id = None →
  (session_user_id st = None →
     dispatch (edit_post ext request post_id) st = (error_page 403, with_pending [] st))
  ∧ (∀ uid u, session_user_id st = Some uid → get_User (db st) uid = Some u →
       sqlite_integer post_id = true →
       dispatch (edit_post ext request post_id) st = (error_page 404, with_pending [] st)).
Proof.
  intros Hmissing. split.
  - intros Hsid. unfold dispatch, edit_post. now rewrite admin_only_anonymous.
  - intros uid u Hsid Hget Hrange. unfold dispatch, edit_post.
    rewrite (admin_only_authenticated _ _ _ uid u Hsid Hget).
    unfold edit_post_wrapped. run.
    now rewrite (get_or_404_missing py_int get_BlogPost post_id st Hmissing Hrange).
Qed.

Lemma edit_post_missing_witness :
  dispatch (edit_post Sample.ext Sample.get 7) (Sample.state Sample.one_post None)
    = (error_page 403, Sample.state Sample.one_post None)
  ∧ dispatch (edit_post Sample.ext Sample.get 7) (Sample.state Sample.one_post (Some 1))
    = (error_page 404, Sample.state Sample.one_post (Some 1))
  ∧ dispatch (edit_post Sample.ext Sample.get max_rowid) (Sample.state Sample.one_post (Some 1))
    = (error_page 404, Sample.state Sample.one_post (Some 1)).
Proof.
  repeat apply conj.
  - apply (edit_post_missing Sample.ext Sample.get (Sample.state Sample.one_post None) 7);
      reflexivity.
  - apply (edit_post_missing Sample.ext Sample.get (Sample.state Sample.one_post (Some 1)) 7)
      with 1 Sample.user_a; reflexivity.
  - apply (edit_post_missing Sample.ext Sample.get (Sample.state Sample.one_post (Some 1))
             max_rowid)
      with 1 Sample.user_a; reflexivity.
Defined.

(** Beyond the range of sqlite the lookup does not answer 404: the
    driver cannot bind the key, [OverflowError] is raised and nothing
    catches it. *)
Lemma edit_post_beyond_sqlite (ext : Externals) (request : Request) (st : State)
    (post_id uid : Z) (u : User.t) :
  session_user_id st = Some uid → get_User (db st) uid = Some u →
  get_BlogPost (db st) post_id = None →
  sqlite_integer post_id = false →
  dispatch (edit_post ext request post_id) st = (error_page 500, with_pending [] st).
Proof.
  intros Hsid Hget Hmissing Hrange. unfold dispatch, edit_post.
  rewrite (admin_only_authenticated _ _ _ uid u Hsid Hget).
  unfold edit_post_wrapped. run.
  now rewrite (get_or_404_overflow py_int get_BlogPost post_id st Hmissing Hrange).
Qed.

Example edit_post_beyond_rowid :
  dispatch (edit_post Sample.ext Sample.get beyond_rowid) (Sample.state Sample.one_post (Some 1))
  = (error_page 500, Sample.state Sample.one_post (Some 1)).
Proof.
  now apply edit_post_beyond_sqlite with 1 Sample.user_a.
Qed.

(** ** Resolving the session *)

Lemma stale_session_run :
  current_user (Sample.state Sample.empty_db (Some 7))
    = (Raise (HTTPException 404), Sample.state Sample.empty_db (Some 7))
  ∧ fst (dispatch (add_new_post Sample.ext Sample.world Sample.get)
           (Sample.state Sample.empty_db (Some 7))) = error_page 404
  ∧ fst (dispatch (add_new_post Sample.ext Sample.world Sample.get)
           (Sample.state Sample.empty_db None)) = redirect (url_for "login" None).
Proof. repeat split; reflexivity. Qed.

(** C3, as stated, fails: a session identifier that names no stored user
    is not read as "nobody is logged in".  With identifier 7 and an empty
    [users] table, [current_user] raises the 404 of [get_or_404], and
    [add_new_post] ends with status 404 where an anonymous caller is
    redirected to the login page. *)
Lemma stale_session_is_not_anonymous :
  ¬ (∀ (st : State) (uid : Z),
       session_user_id st = Some uid →
       (∃ u, u ∈ users (db st) ∧ current_user st = (Ok (Some u), st))
       ∨ current_user st = (Ok None, st)).
Proof.
  intros Hclaim.
  destruct (Hclaim (Sample.state Sample.empty_db (Some 7)) 7 eq_refl)
    as [(u & Hin & _) | Hanon].
  - cbn in Hin. inversion Hin.
  - destruct stale_session_run as [Hrun _]. rewrite Hrun in Hanon. discriminate Hanon.
Qed.

(** C3, amended.  A stored session identifier either resolves to the
    stored user with that id, or [load_user] raises HTTP 404 and the
    request ends with that status: the gated views, [add_new_post] and
    every rendered template answer 404.  It is never resolved to the
    anonymous user. *)
Theorem load_user_resolves_or_404
    (ext : Externals) (world : World) (request : Request) (st : State) (uid : Z) :
  session_user_id st = Some uid →
  (∃ u, u ∈ users (db st) ∧ User.id u = uid
        ∧ load_user uid st = (Ok u, st)
        ∧ current_user st = (Ok (Some u), st))
  ∨ (get_User (db st) uid = None
     ∧ load_user uid st = (Raise (HTTPException 404), st)
     ∧ current_user st = (Raise (HTTPException 404), st)
     ∧ (∀ A (f : A → M Response) (args : A),
          dispatch (admin_only f args) st = (error_page 404, with_pending [] st))
     ∧ dispatch (add_new_post ext world request) st = (error_page 404, with_pending [] st)
     ∧ (∀ template form is_edit,
          dispatch (render_template template form is_edit) st
          = (error_page 404, with_pending [] st))).
Proof.
  intros Hsid. destruct (get_User (db st) uid) as [u|] eqn:Hget.
  - left. exists u. destruct (get_User_spec _ _ _ Hget) as [Hin Hid].
    repeat split; try assumption.
    + unfold load_user. now apply get_or_404_found.
    + now apply current_user_loaded with uid.
  - right. repeat split.
    + unfold load_user. now apply get_or_404_missing.
    + now apply current_user_stale with uid.
    + intros A f args. unfold dispatch. now rewrite (admin_only_stale f args st uid).
    + unfold dispatch, add_new_post. run.
      now rewrite (current_user_stale st uid Hsid Hget).
    + intros template form is_edit. unfold dispatch, render_template. run.
      now rewrite (current_user_stale st uid Hsid Hget).
Qed.

Lemma load_user_resolves_or_404_witness :
  (∃ u, User.id u = 1
        ∧ current_user (Sample.state Sample.one_post (Some 1))
          = (Ok (Some u), Sample.state Sample.one_post (Some 1)))
  ∧ dispatch (delete_post 1) (Sample.state Sample.one_post (Some 7))
    = (error_page 404, Sample.state Sample.one_post (Some 7)).
Proof.
  split.
  - destruct (load_user_resolves_or_404 Sample.ext Sample.world Sample.get
                (Sample.state Sample.one_post (Some 1)) 1 eq_refl)
      as [(u & _ & Hid & _ & Hcu) | (Hnone & _)].
    + exists u. split; assumption.
    + discriminate Hnone.
  - destruct (load_user_resolves_or_404 Sample.ext Sample.world Sample.get
                (Sample.state Sample.one_post (Some 7)) 7 eq_refl)
      as [(u & _ & _ & Hload & _) | (_ & _ & _ & Hgate & _)].
    + discriminate Hload.
    + apply Hgate.
Defined.

(** ** Facts about the tables *)

Lemma next_id_above (ids : list Z) (x : Z) : x ∈ ids → x < next_id ids.
Proof.
  unfold next_id. induction ids as [|y ids IH]; intros Hin.
  - inversion Hin.
  - cbn [fold_right]. apply elem_of_cons in Hin as [->|Hin].
    + lia.
    + specialize (IH Hin). lia.
Qed.

Lemma find_app_fresh {A} (f : A → bool) (l : list A) (x : A) :
  (∀ y, y ∈ l → f y = false) → f x = true → List.find f (l ++ [x]) = Some x.
Proof.
  intros Hl Hx. induction l as [|y l IH]; cbn.
  - now rewrite Hx.
  - rewrite (Hl y) by apply list_elem_of_here.
    apply IH. intros z Hz. apply Hl. now apply list_elem_of_further.
Qed.

Lemma find_none_iff {A} (f : A → bool) (l : list A) :
  List.find f l = None ↔ ∀ y, y ∈ l → f y = false.
Proof.
  split.
  - intros H y Hy. apply (find_none f l H). now apply list_elem_of_In.
  - intros H. induction l as [|y l IH]; cbn; [reflexivity|].
    rewrite (H y) by apply list_elem_of_here.
    apply IH. intros z Hz. apply H. now apply list_elem_of_further.
Qed.

Lemma select_User_by_email_None (s : Store) (e : string) :
  select_User_by_email s e = None ↔ e ∉ map User.email (users s).
Proof.
  unfold select_User_by_email. rewrite find_none_iff. split.
  - intros H Hin. apply list_elem_of_fmap in Hin as (u & -> & Hu).
    specialize (H u Hu). now apply bool_decide_eq_false in H.
  - intros H u Hu. apply bool_decide_eq_false. intros <-.
    apply H. apply list_elem_of_fmap. now exists u.
Qed.

Lemma filter_none {A} (P : A → Prop) `{∀ x, Decision (P x)} (l : list A) :
  (∀ x, x ∈ l → ¬ P x) → filter P l = [].
Proof.
  induction l as [|x l IH]; intros Hl; [reflexivity|].
  rewrite filter_cons_False by (apply Hl; apply list_elem_of_here).
  apply IH. intros y Hy. apply Hl. now apply list_elem_of_further.
Qed.

Lemma unique_key_once {A} (key : A → string) (l : list A) (x : A) :
  NoDup (map key l) → x ∈ l → length (filter (λ y, key y = key x) l) = 1%nat.
Proof.
  induction l as [|y l IH]; intros Hnd Hin; [inversion Hin|].
  cbn [map] in Hnd. apply NoDup_cons in Hnd as [Hy Hnd].
  apply elem_of_cons in Hin as [->|Hin].
  - rewrite filter_cons_True by reflexivity. cbn [length]. f_equal.
    rewrite filter_none; [reflexivity|].
    intros z Hz Heq. apply Hy. rewrite <- Heq.
    apply list_elem_of_fmap. now exists z.
  - rewrite filter_cons_False; [now apply IH|].
    intros Heq. apply Hy. rewrite Heq. apply list_elem_of_fmap. now exists x.
Qed.

(** ** Registration *)

Section Register.
Context (ext : Externals) (world : World) (request : Request) (st : State).
Context (email password name : string).
Hypothesis Hmethod : method request = POST.
Hypothesis Hemail : form request !! "email" = Some email.
Hypothesis Hpassword : form request !! "password" = Some password.
Hypothesis Hname : form request !! "name" = Some name.

Local Abbreviation row := (new_user ext world st email password name).
Local Abbreviation after := (registered ext world st email password name).

Lemma register_taken (u : User.t) :
  select_User_by_email (db st) email = Some u →
  register ext world request st
  = (Ok (redirect (url_for "login" None)),
     with_flashes (flashes st ++ [flash_duplicate_email]) st).
Proof.
  intros Hsel. unfold register. rewrite Hmethod. unfold request_form. rewrite Hemail.
  run. rewrite Hsel. run. reflexivity.
Qed.

Lemma register_fresh :
  pending st = [] →
  select_User_by_email (db st) email = None →
  register ext world request st
  = (Ok (redirect (url_for "get_all_posts" None)), after).
Proof.
  intros Hpend Hsel. unfold register. rewrite Hmethod. unfold request_form.
  rewrite Hemail, Hname, Hpassword.
  run. rewrite Hsel. run. unfold db_session_commit. cbn [pending with_pending db].
  rewrite Hpend. cbn [app flush flush_one].
  apply select_User_by_email_None in Hsel.
  rewrite bool_decide_eq_false_2 by exact Hsel.
  run. reflexivity.
Qed.

Lemma registered_current_user : current_user after = (Ok (Some row), after).
Proof.
  apply current_user_loaded with (User.id row); [reflexivity|].
  unfold get_User. cbn [registered db users with_users].
  apply find_app_fresh.
  - intros u Hu. apply bool_decide_eq_false. cbn [new_user User.id].
    assert (User.id u < next_id (map User.id (users (db st)))).
    { apply next_id_above. apply list_elem_of_fmap. now exists u. }
    lia.
  - now apply bool_decide_eq_true.
Qed.

Lemma registered_once :
  select_User_by_email (db st) email = None →
  users_with_email (db after) email = [row].
Proof.
  intros Hsel. apply select_User_by_email_None in Hsel.
  unfold users_with_email. cbn [registered db users with_users].
  rewrite filter_app, filter_none.
  - now rewrite filter_cons_True, filter_nil by reflexivity.
  - intros u Hu Heq. apply Hsel. rewrite <- Heq. apply list_elem_of_fmap. now exists u.
Qed.

Lemma registered_unique :
  select_User_by_email (db st) email = None →
  unique_emails (db st) → unique_emails (db after).
Proof.
  intros Hsel Hnd. apply select_User_by_email_None in Hsel.
  unfold unique_emails in *. cbn [registered db users with_users].
  rewrite map_app. apply NoDup_app. repeat split.
  - exact Hnd.
  - intros e He Hin. cbn in Hin. apply list_elem_of_singleton in Hin. now subst e.
  - cbn. apply NoDup_singleton.
Qed.
End Register.

(** C6.  A POST to [register] carrying email, password and name.  If a
    stored user has the email: the flash message, a redirect to [login],
    tables and session as before, and exactly one user with that email.
    If none has it: a redirect to the home route, the [users] table
    extended by one row with a fresh id whose password column is the value
    of [generate_password_hash] (method pbkdf2, salt length 8) on the
    submitted password, the session set to that row, which [current_user]
    then resolves, and again exactly one user with that email. *)
Theorem register_post
    (ext : Externals) (world : World) (request : Request) (st : State)
    (email password name : string) :
  method request = POST →
  form request !! "email" = Some email →
  form request !! "password" = Some password →
  form request !! "name" = Some name →
  pending st = [] →
  unique_emails (db st) →
  ((∃ u, u ∈ users (db st) ∧ User.email u = email) →
     dispatch (register ext world request) st
     = (redirect (url_for "login" None),
        with_flashes (flashes st ++ [flash_duplicate_email]) st)
     ∧ length (users_with_email (db st) email) = 1%nat)
  ∧ ((∀ u, u ∈ users (db st) → User.email u ≠ email) →
     let row := new_user ext world st email password name in
     let st' := registered ext world st email password name in
     dispatch (register ext world request) st
     = (redirect (url_for "get_all_posts" None), st')
     ∧ users (db st') = users (db st) ++ [row]
     ∧ blog_posts (db st') = blog_posts (db st)
     ∧ comments (db st') = comments (db st)
     ∧ User.password row = generate_password_hash ext password "pbkdf2" 8 (urandom world)
     ∧ (∀ u, u ∈ users (db st) → User.id u ≠ User.id row)
     ∧ session_user_id st' = Some (User.id row)
     ∧ current_user st' = (Ok (Some row), st')
     ∧ users_with_email (db st') email = [row]
     ∧ unique_emails (db st')).
Proof.
  intros Hmethod Hemail Hpassword Hname Hpend Huniq. split.
  - intros (u & Hu & Heq).
    destruct (select_User_by_email (db st) email) as [v|] eqn:Hsel.
    + split.
      * unfold dispatch. rewrite (register_taken ext world request st email Hmethod Hemail v Hsel).
        f_equal. destruct st; cbn in *. now subst.
      * subst email. unfold users_with_email. now apply unique_key_once.
    + apply select_User_by_email_None in Hsel. exfalso. apply Hsel.
      rewrite <- Heq. apply list_elem_of_fmap. now exists u.
  - intros Hfresh row st'.
    assert (Hsel : select_User_by_email (db st) email = None).
    { apply select_User_by_email_None. intros Hin.
      apply list_elem_of_fmap in Hin as (u & Heq & Hu). now apply (Hfresh u Hu). }
    repeat split.
    + unfold dispatch.
      now rewrite (register_fresh ext world request st email password name
                     Hmethod Hemail Hpassword Hname Hpend Hsel).
    + intros u Hu Heq.
      assert (User.id u < next_id (map User.id (users (db st)))).
      { apply next_id_above. apply list_elem_of_fmap. now exists u. }
      subst row. cbn [new_user User.id] in Heq. lia.
    + apply registered_current_user.
    + now apply registered_once.
    + now apply registered_unique.
Qed.

Lemma register_post_witness :
  dispatch (register Sample.ext Sample.world
              (Sample.post [("email", "a@x.com"); ("password", "pw2"); ("name", "A2")]))
    (Sample.state Sample.one_post None)
  = (redirect (url_for "login" None),
     with_flashes [flash_duplicate_email] (Sample.state Sample.one_post None))
  ∧ dispatch (register Sample.ext Sample.world
                (Sample.post [("email", "b@x.com"); ("password", "pw2"); ("name", "B")]))
      (Sample.state Sample.one_post None)
    = (redirect (url_for "get_all_posts" None),
       Sample.state
         (mkStore [Sample.user_a; User.mk 2 "b@x.com" "pbkdf2$salt$pw2" "B"]
            [Sample.post_1] [])
         (Some 2)).
Proof.
  split.
  - refine (proj1 (proj1 (register_post Sample.ext Sample.world
                            (Sample.post [("email", "a@x.com"); ("password", "pw2"); ("name", "A2")])
                            (Sample.state Sample.one_post None) "a@x.com" "pw2" "A2"
                            eq_refl eq_refl eq_refl eq_refl eq_refl _) _)).
    + cbn. apply NoDup_singleton.
    + exists Sample.user_a. split; [apply list_elem_of_here | reflexivity].
  - refine (proj1 (proj2 (register_post Sample.ext Sample.world
                            (Sample.post [("email", "b@x.com"); ("password", "pw2"); ("name", "B")])
                            (Sample.state Sample.one_post None) "b@x.com" "pw2" "B"
                            eq_refl eq_refl eq_refl eq_refl eq_refl _) _)).
    + cbn. apply NoDup_singleton.
    + intros u Hu. cbn in Hu. apply list_elem_of_singleton in Hu. subst u. discriminate.
Defined.

(** C10.  The POST branch of [register] never looks at the
    [RegisterUser] form: whatever that form class is and whatever its
    validation would say, the view computes the same result, and when
    the request carries name, email and password and no stored user has
    the email, the new user is inserted and logged in. *)
Theorem register_post_ignores_form
    (ext : Externals) (world : World) (request : Request) (st : State) :
  method request = POST →
  (∀ R : Request → FlaskForm,
     register (with_RegisterUser R ext) world request st = register ext world request st)
  ∧ (∀ (R : Request → FlaskForm) (email password name : string),
       form request !! "email" = Some email →
       form request !! "password" = Some password →
       form request !! "name" = Some name →
       pending st = [] →
       (∀ u, u ∈ users (db st) → User.email u ≠ email) →
       let st' := registered ext world st email password name in
       dispatch (register (with_RegisterUser R ext) world request) st
       = (redirect (url_for "get_all_posts" None), st')
       ∧ new_user ext world st email password name ∈ users (db st')
       ∧ session_user_id st' = Some (User.id (new_user ext world st email password name))).
Proof.
  intros Hmethod. split.
  - intros R. unfold register. now rewrite Hmethod.
  - intros R email password name Hemail Hpassword Hname Hpend Hfresh st'.
    assert (Hsel : select_User_by_email (db st) email = None).
    { apply select_User_by_email_None. intros Hin.
      apply list_elem_of_fmap in Hin as (u & Heq & Hu). now apply (Hfresh u Hu). }
    repeat split.
    + unfold dispatch.
      now rewrite (register_fresh (with_RegisterUser R ext) world request st
                     email password name Hmethod Hemail Hpassword Hname Hpend Hsel).
    + cbn [st' registered db users with_users]. apply elem_of_app. right.
      apply list_elem_of_here.
Qed.

Lemma register_post_ignores_form_witness :
  register
    (with_RegisterUser (λ req, mkFlaskForm ∅ true) Sample.ext) Sample.world
    (Sample.post [("email", "b@x.com"); ("password", "pw2"); ("name", "B")])
    (Sample.state Sample.one_post None)
  = register Sample.ext Sample.world
      (Sample.post [("email", "b@x.com"); ("password", "pw2"); ("name", "B")])
      (Sample.state Sample.one_post None).
Proof.
  apply (register_post_ignores_form Sample.ext Sample.world
           (Sample.post [("email", "b@x.com"); ("password", "pw2"); ("name", "B")])
           (Sample.state Sample.one_post None)).
  reflexivity.
Defined.

(** ** Logging in *)

Section Login.
Context (ext : Externals) (request : Request) (st : State).
Context (email password : string).
Hypothesis Hmethod : method request = POST.
Hypothesis Hemail : form request !! "email" = Some email.
Hypothesis Hpassword : form request !! "password" = Some password.

Lemma login_no_such_user :
  select_User_by_email (db st) email = None →
  login ext request st
  = (Ok (redirect (url_for "login" None)),
     with_flashes (flashes st ++ [flash_no_such_user]) st).
Proof.
  intros Hsel. unfold login. rewrite Hmethod. unfold request_form. rewrite Hemail.
  run. rewrite Hsel. run. reflexivity.
Qed.

Lemma login_wrong_password (u : User.t) :
  select_User_by_email (db st) email = Some u →
  check_password_hash ext (User.password u) password = false →
  login ext request st
  = (Ok (redirect (url_for "login" None)),
     with_flashes (flashes st ++ [flash_wrong_password]) st).
Proof.
  intros Hsel Hcheck. unfold login. rewrite Hmethod. unfold request_form.
  rewrite Hemail, Hpassword. run. rewrite Hsel. run. rewrite Hcheck. run. reflexivity.
Qed.

Lemma login_verified (u : User.t) :
  select_User_by_email (db st) email = Some u →
  check_password_hash ext (User.password u) password = true →
  login ext request st
  = (Ok (redirect (url_for "get_all_posts" None)),
     with_session_user_id (Some (User.id u)) st).
Proof.
  intros Hsel Hcheck. unfold login. rewrite Hmethod. unfold request_form.
  rewrite Hemail, Hpassword. run. rewrite Hsel. run. rewrite Hcheck. run. reflexivity.
Qed.
End Login.

Lemma unique_select (s : Store) (u : User.t) :
  unique_emails s → u ∈ users s → select_User_by_email s (User.email u) = Some u.
Proof.
  unfold unique_emails, select_User_by_email.
  induction (users s) as [|v l IH]; intros Hnd Hin; [inversion Hin|].
  cbn [map] in Hnd. apply NoDup_cons in Hnd as [Hv Hnd]. cbn [List.find].
  apply elem_of_cons in Hin as [->|Hin].
  - now rewrite bool_decide_eq_true_2.
  - rewrite bool_decide_eq_false_2; [now apply IH|].
    intros Heq. apply Hv. rewrite Heq. apply list_elem_of_fmap. now exists u.
Qed.

(** C7.  A POST to [login] carrying email and password.  No stored user
    with the email: the "does not exist" flash and a redirect to [login].
    A stored user whose hash the password does not verify against: the
    "wrong password" flash, a redirect to [login], and the session is left
    as it was (none is established).  A stored user whose hash verifies:
    the session is set to that user, [current_user] resolves it, and the
    caller is redirected to the home route. *)
Theorem login_post
    (ext : Externals) (request : Request) (st : State) (email password : string) :
  method request = POST →
  form request !! "email" = Some email →
  form request !! "password" = Some password →
  pending st = [] →
  unique_emails (db st) →
  ((∀ u, u ∈ users (db st) → User.email u ≠ email) →
     dispatch (login ext request) st
     = (redirect (url_for "login" None),
        with_flashes (flashes st ++ [flash_no_such_user]) st))
  ∧ (∀ u, u ∈ users (db st) → User.email u = email →
       (check_password_hash ext (User.password u) password = false →
          dispatch (login ext request) st
          = (redirect (url_for "login" None),
             with_flashes (flashes st ++ [flash_wrong_password]) st)
          ∧ session_user_id (snd (dispatch (login ext request) st)) = session_user_id st)
       ∧ (check_password_hash ext (User.password u) password = true →
          let st' := with_session_user_id (Some (User.id u)) st in
          dispatch (login ext request) st = (redirect (url_for "get_all_posts" None), st')
          ∧ (NoDup (map User.id (users (db st))) →
             current_user st' = (Ok (Some u), st')))).
Proof.
  intros Hmethod Hemail Hpassword Hpend Huniq. split.
  - intros Hnone.
    assert (Hsel : select_User_by_email (db st) email = None).
    { apply select_User_by_email_None. intros Hin.
      apply list_elem_of_fmap in Hin as (u & Heq & Hu). now apply (Hnone u Hu). }
    unfold dispatch. rewrite (login_no_such_user ext request st email Hmethod Hemail Hsel).
    f_equal. destruct st; cbn in *; now subst.
  - intros u Hu Heq.
    assert (Hsel : select_User_by_email (db st) email = Some u).
    { subst email. now apply unique_select. }
    split.
    + intros Hcheck.
      assert (Hrun : dispatch (login ext request) st
                     = (redirect (url_for "login" None),
                        with_flashes (flashes st ++ [flash_wrong_password]) st)).
      { unfold dispatch.
        rewrite (login_wrong_password ext request st email password
                   Hmethod Hemail Hpassword u Hsel Hcheck).
        f_equal. destruct st; cbn in *; now subst. }
      split; [exact Hrun | now rewrite Hrun].
    + intros Hcheck st'. split.
      * unfold dispatch.
        rewrite (login_verified ext request st email password
                   Hmethod Hemail Hpassword u Hsel Hcheck).
        f_equal. destruct st; cbn in *; now subst.
      * intros Hids. apply current_user_loaded with (User.id u); [reflexivity|].
        cbn [st' db with_session_user_id]. unfold get_User.
        clear - Hu Hids. induction (users (db st)) as [|v l IH]; [inversion Hu|].
        cbn [map] in Hids. apply NoDup_cons in Hids as [Hv Hids]. cbn [List.find].
        apply elem_of_cons in Hu as [->|Hu].
        -- now rewrite bool_decide_eq_true_2.
        -- rewrite bool_decide_eq_false_2; [now apply IH|].
           intros Hid. apply Hv. rewrite Hid. apply list_elem_of_fmap. now exists u.
Qed.

Lemma login_post_witness :
  dispatch (login Sample.ext (Sample.post [("email", "a@x.com"); ("password", "bad")]))
    (Sample.state Sample.one_post None)
  = (redirect (url_for "login" None),
     with_flashes [flash_wrong_password] (Sample.state Sample.one_post None))
  ∧ dispatch (login Sample.ext (Sample.post [("email", "a@x.com"); ("password", "pw1")]))
      (Sample.state Sample.one_post None)
    = (redirect (url_for "get_all_posts" None), Sample.state Sample.one_post (Some 1)).
Proof.
  assert (Huniq : unique_emails Sample.one_post) by (cbn; apply NoDup_singleton).
  assert (Hin : Sample.user_a ∈ users Sample.one_post) by apply list_elem_of_here.
  split.
  - refine (proj1 (proj1 (proj2 (login_post Sample.ext
                                   (Sample.post [("email", "a@x.com"); ("password", "bad")])
                                   (Sample.state Sample.one_post None) "a@x.com" "bad"
                                   eq_refl eq_refl eq_refl eq_refl Huniq)
                            Sample.user_a Hin eq_refl) eq_refl)).
  - refine (proj1 (proj2 (proj2 (login_post Sample.ext
                                   (Sample.post [("email", "a@x.com"); ("password", "pw1")])
                                   (Sample.state Sample.one_post None) "a@x.com" "pw1"
                                   eq_refl eq_refl eq_refl eq_refl Huniq)
                            Sample.user_a Hin eq_refl) eq_refl)).
Defined.

(** ** Creating a post *)

Section AddNewPost.
Context (ext : Externals) (world : World) (request : Request) (st : State).
Context (uid : Z) (u : User.t).
Hypothesis Hsid : session_user_id st = Some uid.
Hypothesis Huser : get_User (db st) uid = Some u.
Hypothesis Hpend : pending st = [].
Hypothesis Hvalid : PostForm.validate_on_submit (CreatePostForm ext None request) = true.

Lemma add_new_post_commit :
  add_new_post ext world request st
  = match flush [new_post_change ext world request u] (db st) with
    | Some (s', _) =>
        (Ok (redirect (url_for "get_all_posts" None)), with_pending [] (with_db s' st))
    | None => (Raise IntegrityError, with_pending [new_post_change ext world request u] st)
    end.
Proof.
  unfold add_new_post. run. rewrite (current_user_loaded st uid u Hsid Huser).
  rewrite Hvalid. run. unfold db_session_commit. cbn [pending with_pending db].
  rewrite Hpend. cbn [app]. fold (new_post_change ext world request u).
  destruct (flush _ _) as [[s' k]|]; run; reflexivity.
Qed.

Lemma add_new_post_taken :
  PostForm.title (CreatePostForm ext None request) ∈ map BlogPost.title (blog_posts (db st)) →
  dispatch (add_new_post ext world request) st = (error_page 500, st).
Proof.
  intros Htaken. unfold dispatch. rewrite add_new_post_commit.
  unfold new_post_change. cbn [flush flush_one].
  rewrite bool_decide_eq_true_2 by exact Htaken.
  f_equal. destruct st; cbn in *. now subst.
Qed.

Lemma add_new_post_fresh :
  PostForm.title (CreatePostForm ext None request) ∉ map BlogPost.title (blog_posts (db st)) →
  let form := CreatePostForm ext None request in
  let row :=
    BlogPost.mk (next_id (map BlogPost.id (blog_posts (db st)))) (User.id u)
      (PostForm.title form) (PostForm.subtitle form) (today world)
      (PostForm.body form) (PostForm.img_url form) in
  dispatch (add_new_post ext world request) st
  = (redirect (url_for "get_all_posts" None),
     with_db (with_blog_posts (blog_posts (db st) ++ [row]) (db st)) st).
Proof.
  intros Hfree form row. unfold dispatch. rewrite add_new_post_commit.
  unfold new_post_change. cbn [flush flush_one].
  rewrite bool_decide_eq_false_2 by exact Hfree.
  f_equal. destruct st; cbn in *. now subst.
Qed.
End AddNewPost.

(** C4.  What [add_new_post] does with a valid form whose title a stored
    post already has: the INSERT violates the UNIQUE constraint, the
    [IntegrityError] of [db.session.commit()] is caught nowhere, and the
    request ends with status 500.  Nothing is flashed and nobody is
    redirected; the tables are as before, so the title is still stored
    exactly once. *)
Theorem add_new_post_duplicate_title
    (ext : Externals) (world : World) (request : Request) (st : State)
    (uid : Z) (u : User.t) :
  session_user_id st = Some uid →
  get_User (db st) uid = Some u →
  pending st = [] →
  unique_titles (db st) →
  let form := CreatePostForm ext None request in
  PostForm.validate_on_submit form = true →
  (∃ p, p ∈ blog_posts (db st) ∧ BlogPost.title p = PostForm.title form) →
  dispatch (add_new_post ext world request) st = (error_page 500, st)
  ∧ length (posts_with_title (db st) (PostForm.title form)) = 1%nat.
Proof.
  intros Hsid Huser Hpend Huniq form Hvalid (p & Hp & Htitle). split.
  - apply add_new_post_taken with uid u; try assumption.
    fold form. rewrite <- Htitle. apply list_elem_of_fmap. now exists p.
  - rewrite <- Htitle. unfold posts_with_title. now apply unique_key_once.
Qed.

Lemma add_new_post_duplicate_title_witness :
  dispatch (add_new_post Sample.ext Sample.world
              (Sample.post [("title", "Hello World"); ("subtitle", "S"); ("body", "B");
                            ("img_url", "http://x/i.png")]))
    (Sample.state Sample.one_post (Some 1))
  = (error_page 500, Sample.state Sample.one_post (Some 1)).
Proof.
  refine (proj1 (add_new_post_duplicate_title Sample.ext Sample.world
                   (Sample.post [("title", "Hello World"); ("subtitle", "S"); ("body", "B");
                                 ("img_url", "http://x/i.png")])
                   (Sample.state Sample.one_post (Some 1)) 1 Sample.user_a
                   eq_refl eq_refl eq_refl _ eq_refl _)).
  - cbn. apply NoDup_singleton.
  - exists Sample.post_1. split; [apply list_elem_of_here | reflexivity].
Defined.

(** ** Editing a post *)

Lemma update_post_twice (pk : Z) (f g : BlogPost.t → BlogPost.t) (s : Store) :
  (∀ p, BlogPost.id (f p) = BlogPost.id p) →
  update_post pk g (update_post pk f s) = update_post pk (λ p, g (f p)) s.
Proof.
  intros Hid. unfold update_post, with_blog_posts. cbn [blog_posts users comments].
  f_equal. rewrite map_map. apply map_ext. intros p.
  destruct (bool_decide (BlogPost.id p = pk)) eqn:E.
  - now rewrite Hid, E.
  - now rewrite E.
Qed.

Lemma flush_edit (pk uid : Z) (f : PostForm.t) (s : Store) :
  PostForm.title f ∉ other_titles s pk →
  flush (edit_changes pk uid f) s = Some (update_post pk (edited uid f) s, []).
Proof.
  intros Hfree. unfold edit_changes. cbn [flush flush_one].
  fold (other_titles s pk).
  rewrite bool_decide_eq_false_2 by exact Hfree.
  cbn [app]. do 2 f_equal.
  repeat (rewrite update_post_twice; [|intros p; destruct p; reflexivity]).
  reflexivity.
Qed.

Lemma get_BlogPost_update (pk : Z) (f : BlogPost.t → BlogPost.t) (s : Store) (q : Z) :
  (∀ p, BlogPost.id (f p) = BlogPost.id p) →
  get_BlogPost (update_post pk f s) q
  = if bool_decide (q = pk) then f <$> get_BlogPost s q else get_BlogPost s q.
Proof.
  intros Hid. unfold get_BlogPost, update_post. cbn [blog_posts with_blog_posts].
  induction (blog_posts s) as [|p l IH]; cbn [map List.find].
  - now destruct (bool_decide (q = pk)).
  - destruct (bool_decide (BlogPost.id p = pk)) eqn:Ep.
    + rewrite Hid. destruct (bool_decide (BlogPost.id p = q)) eqn:Eq.
      * apply bool_decide_eq_true in Ep, Eq. subst.
        now rewrite bool_decide_eq_true_2.
      * exact IH.
    + destruct (bool_decide (BlogPost.id p = q)) eqn:Eq.
      * apply bool_decide_eq_false in Ep. apply bool_decide_eq_true in Eq. subst q.
        now rewrite bool_decide_eq_false_2.
      * exact IH.
Qed.

Section EditPost.
Context (ext : Externals) (request : Request) (st : State).
Context (uid : Z) (u : User.t) (post_id : Z) (post : BlogPost.t).
Hypothesis Hsid : session_user_id st = Some uid.
Hypothesis Huser : get_User (db st) uid = Some u.
Hypothesis Hpend : pending st = [].
Hypothesis Hpost : get_BlogPost (db st) post_id = Some post.
Hypothesis Hvalid :
  PostForm.validate_on_submit (CreatePostForm ext (Some post) request) = true.

Lemma edit_post_commit :
  let changes := edit_changes post_id (User.id u) (CreatePostForm ext (Some post) request) in
  edit_post ext request post_id st
  = match flush changes (db st) with
    | Some (s', _) =>
        (Ok (redirect (url_for "show_post" (Some (BlogPost.id post)))),
         with_pending [] (with_db s' st))
    | None => (Raise IntegrityError, with_pending changes st)
    end.
Proof.
  intros changes. unfold edit_post.
  rewrite (admin_only_authenticated _ _ _ uid u Hsid Huser).
  unfold edit_post_wrapped. run.
  rewrite (get_or_404_found py_int get_BlogPost post_id st post Hpost).
  rewrite Hvalid. run.
  rewrite (current_user_loaded _ uid u) by (cbn; assumption).
  run. unfold db_session_commit. cbn [pending with_pending db]. rewrite Hpend. cbn [app].
  fold (edit_changes post_id (User.id u) (CreatePostForm ext (Some post) request)).
  fold changes. destruct (flush _ _) as [[s' k]|]; run; reflexivity.
Qed.
End EditPost.

Lemma edit_post_title_clash :
  get_BlogPost Sample.two_posts 2 = Some Sample.post_2
  ∧ PostForm.validate_on_submit
      (CreatePostForm Sample.ext (Some Sample.post_2) retitle_second) = true
  ∧ dispatch (edit_post Sample.ext retitle_second 2) (Sample.state Sample.two_posts (Some 1))
    = (error_page 500, Sample.state Sample.two_posts (Some 1)).
Proof. repeat split; reflexivity. Qed.

(** C8, as stated, fails: not every valid edit of a stored post is
    written.  With posts 1 ("Hello World") and 2 ("Second") stored, the
    logged-in user 1 submitting a valid form for post 2 whose title is
    "Hello World" gets status 500 and post 2 is as before. *)
Lemma edit_post_valid_not_always_written :
  ¬ (∀ (ext : Externals) (request : Request) (st : State)
       (uid : Z) (u : User.t) (post_id : Z) (post : BlogPost.t),
       session_user_id st = Some uid →
       get_User (db st) uid = Some u →
       pending st = [] →
       get_BlogPost (db st) post_id = Some post →
       PostForm.validate_on_submit (CreatePostForm ext (Some post) request) = true →
       fst (dispatch (edit_post ext request post_id) st)
         = redirect (url_for "show_post" (Some post_id))
       ∧ get_BlogPost (db (snd (dispatch (edit_post ext request post_id) st))) post_id
         = Some (edited uid (CreatePostForm ext (Some post) request) post)).
Proof.
  intros Hclaim.
  destruct edit_post_title_clash as (Hpost & Hvalid & Hrun).
  destruct (Hclaim Sample.ext retitle_second (Sample.state Sample.two_posts (Some 1))
              1 Sample.user_a 2 Sample.post_2 eq_refl eq_refl eq_refl Hpost Hvalid)
    as [Hresp _].
  rewrite Hrun in Hresp. discriminate Hresp.
Qed.

(** C8, amended.  For a stored post and a logged-in user submitting a
    valid edit form whose title no other stored post has: the row keeps
    its id and date, its title, subtitle, body and img_url become the
    submitted values, its author becomes the submitting user (whoever
    wrote the post), no other row of any table changes, and the caller
    is redirected to the detail page of the post. *)
Theorem edit_post_valid
    (ext : Externals) (request : Request) (st : State)
    (uid : Z) (u : User.t) (post_id : Z) (post : BlogPost.t) :
  session_user_id st = Some uid →
  get_User (db st) uid = Some u →
  pending st = [] →
  get_BlogPost (db st) post_id = Some post →
  let form := CreatePostForm ext (Some post) request in
  PostForm.validate_on_submit form = true →
  PostForm.title form ∉ other_titles (db st) post_id →
  let st' := with_db (update_post post_id (edited uid form) (db st)) st in
  dispatch (edit_post ext request post_id) st
  = (redirect (url_for "show_post" (Some post_id)), st')
  ∧ get_BlogPost (db st') post_id
    = Some (BlogPost.mk post_id uid (PostForm.title form) (PostForm.subtitle form)
              (BlogPost.date post) (PostForm.body form) (PostForm.img_url form))
  ∧ (∀ q, q ≠ post_id → get_BlogPost (db st') q = get_BlogPost (db st) q)
  ∧ map BlogPost.id (blog_posts (db st')) = map BlogPost.id (blog_posts (db st))
  ∧ map BlogPost.date (blog_posts (db st')) = map BlogPost.date (blog_posts (db st))
  ∧ users (db st') = users (db st)
  ∧ comments (db st') = comments (db st).
Proof.
  intros Hsid Huser Hpend Hpost form Hvalid Hfree st'.
  destruct (get_User_spec _ _ _ Huser) as [_ Huid].
  destruct (get_BlogPost_spec _ _ _ Hpost) as [_ Hpid].
  assert (Hkeep : ∀ p, BlogPost.id (edited uid form p) = BlogPost.id p) by reflexivity.
  repeat split.
  - unfold dispatch.
    rewrite (edit_post_commit ext request st uid u post_id post Hsid Huser Hpend Hpost Hvalid).
    cbv zeta. fold form. rewrite Huid, (flush_edit post_id uid form (db st) Hfree), Hpid.
    f_equal. subst st'. destruct st; cbn in *. now subst.
  - cbn [st' db with_db]. rewrite (get_BlogPost_update _ _ _ _ Hkeep).
    rewrite bool_decide_eq_true_2 by reflexivity. rewrite Hpost. cbn.
    unfold edited. now rewrite Hpid.
  - intros q Hq. cbn [st' db with_db]. rewrite (get_BlogPost_update _ _ _ _ Hkeep).
    now rewrite bool_decide_eq_false_2.
  - cbn [st' db with_db update_post blog_posts with_blog_posts].
    rewrite map_map. apply map_ext. intros p. now destruct (bool_decide _).
  - cbn [st' db with_db update_post blog_posts with_blog_posts].
    rewrite map_map. apply map_ext. intros p. now destruct (bool_decide _).
Qed.

Lemma edit_post_valid_witness :
  dispatch (edit_post Sample.ext rewrite_first 1)
    (Sample.state (mkStore [Sample.user_a; User.mk 2 "b@x.com" "pbkdf2$salt$pw2" "B"]
                     [Sample.post_1; Sample.post_2] [])
       (Some 2))
  = (redirect (url_for "show_post" (Some 1)),
     Sample.state (mkStore [Sample.user_a; User.mk 2 "b@x.com" "pbkdf2$salt$pw2" "B"]
                     [BlogPost.mk 1 2 "Hello Again" "S" "April 03, 2025" "B" "http://x/i.png";
                      Sample.post_2] [])
       (Some 2)).
Proof.
  refine (proj1 (edit_post_valid Sample.ext rewrite_first
                   (Sample.state (mkStore [Sample.user_a; User.mk 2 "b@x.com" "pbkdf2$salt$pw2" "B"]
                                    [Sample.post_1; Sample.post_2] [])
                      (Some 2))
                   2 (User.mk 2 "b@x.com" "pbkdf2$salt$pw2" "B") 1 Sample.post_1
                   eq_refl eq_refl eq_refl eq_refl eq_refl _)).
  vm_compute. intros Hin. apply list_elem_of_singleton in Hin. discriminate Hin.
Defined.

(** ** Deleting a post *)

Lemma orphan_nobody (pk : Z) (cs : list Comment.t) :
  filter (references pk) cs = [] →
  map (λ c, if bool_decide (references pk c) then Comment.set_post_id None c else c) cs = cs.
Proof.
  induction cs as [|c cs IH]; intros Hnone; [reflexivity|].
  destruct (decide (references pk c)) as [Hc|Hc].
  - rewrite filter_cons_True in Hnone by exact Hc. discriminate Hnone.
  - rewrite filter_cons_False in Hnone by exact Hc. cbn [map].
    rewrite bool_decide_eq_false_2 by exact Hc. f_equal. now apply IH.
Qed.

Lemma flush_delete_childless (pk : Z) (s : Store) :
  filter (references pk) (comments s) = [] →
  flush [DeleteBlogPost pk] s = Some (without_post pk s, []).
Proof.
  intros Hnone. cbn [flush flush_one].
  rewrite bool_decide_eq_true_2 by exact Hnone. cbn [orb app].
  rewrite (orphan_nobody pk (comments s) Hnone).
  unfold without_post. now destruct s.
Qed.

Lemma flush_delete_commented (pk : Z) (s : Store) :
  filter (references pk) (comments s) ≠ [] →
  flush [DeleteBlogPost pk] s = None.
Proof.
  intros Hsome. cbn [flush flush_one].
  now rewrite bool_decide_eq_false_2 by exact Hsome.
Qed.

Lemma get_BlogPost_without (pk : Z) (s : Store) (q : Z) :
  get_BlogPost (without_post pk s) q
  = if bool_decide (q = pk) then None else get_BlogPost s q.
Proof.
  unfold get_BlogPost, without_post. cbn [blog_posts with_blog_posts].
  induction (blog_posts s) as [|p l IH]; cbn [List.find].
  - rewrite filter_nil. now destruct (bool_decide (q = pk)).
  - destruct (decide (BlogPost.id p = pk)) as [Hp|Hp].
    + rewrite filter_cons_False by (intros H; now apply H).
      rewrite IH. destruct (bool_decide (q = pk)) eqn:Eq; [reflexivity|].
      apply bool_decide_eq_false in Eq.
      rewrite bool_decide_eq_false_2; [reflexivity | congruence].
    + rewrite filter_cons_True by exact Hp. cbn [List.find].
      destruct (bool_decide (BlogPost.id p = q)) eqn:Ep.
      * apply bool_decide_eq_true in Ep. subst q.
        now rewrite bool_decide_eq_false_2.
      * exact IH.
Qed.

Section DeletePost.
Context (st : State) (uid : Z) (u : User.t) (post_id : Z) (post : BlogPost.t).
Hypothesis Hsid : session_user_id st = Some uid.
Hypothesis Huser : get_User (db st) uid = Some u.
Hypothesis Hpend : pending st = [].
Hypothesis Hpost : get_BlogPost (db st) post_id = Some post.

Lemma delete_post_commit :
  delete_post post_id st
  = match flush [DeleteBlogPost post_id] (db st) with
    | Some (s', _) =>
        (Ok (redirect (url_for "get_all_posts" None)), with_pending [] (with_db s' st))
    | None => (Raise IntegrityError, with_pending [DeleteBlogPost post_id] st)
    end.
Proof.
  unfold delete_post. rewrite (admin_only_authenticated _ _ _ uid u Hsid Huser).
  unfold delete_post_wrapped. run.
  rewrite (get_or_404_found py_int get_BlogPost post_id st post Hpost).
  destruct (get_BlogPost_spec _ _ _ Hpost) as [_ ->].
  run. unfold db_session_commit. cbn [pending with_pending db]. rewrite Hpend. cbn [app].
  destruct (flush _ _) as [[s' k]|]; run; reflexivity.
Qed.

Lemma delete_post_childless :
  filter (references post_id) (comments (db st)) = [] →
  dispatch (delete_post post_id) st
  = (redirect (url_for "get_all_posts" None), with_db (without_post post_id (db st)) st).
Proof.
  intros Hnone. unfold dispatch. rewrite delete_post_commit.
  rewrite (flush_delete_childless post_id (db st) Hnone).
  f_equal. destruct st; cbn in *. now subst.
Qed.

Lemma delete_post_refused :
  filter (references post_id) (comments (db st)) ≠ [] →
  dispatch (delete_post post_id) st = (error_page 500, st).
Proof.
  intros Hsome. unfold dispatch. rewrite delete_post_commit.
  rewrite (flush_delete_commented post_id (db st) Hsome).
  f_equal. destruct st; cbn in *. now subst.
Qed.
End DeletePost.

(** C1.  What [delete_post] does for a logged-in caller and a stored
    post.  When no comment references the post, the post is removed and
    no other, and the caller is redirected to the home listing.  When a
    comment references it, the post is not removed and neither is the
    comment: the relationship has no cascade, so the unit of work sets
    the [post_id] of the comment to NULL, the column refuses NULL, the
    commit raises [IntegrityError], nothing catches it, and the request
    ends with status 500 and the tables as they were. *)
Theorem delete_post_of_commented_post
    (st : State) (uid : Z) (u : User.t) (post_id : Z) (post : BlogPost.t) :
  session_user_id st = Some uid →
  get_User (db st) uid = Some u →
  pending st = [] →
  get_BlogPost (db st) post_id = Some post →
  let st' := snd (dispatch (delete_post post_id) st) in
  (filter (references post_id) (comments (db st)) = [] →
     dispatch (delete_post post_id) st
     = (redirect (url_for "get_all_posts" None), with_db (without_post post_id (db st)) st)
     ∧ get_BlogPost (db st') post_id = None
     ∧ (∀ q, q ≠ post_id → get_BlogPost (db st') q = get_BlogPost (db st) q))
  ∧ (∀ c, c ∈ comments (db st) → references post_id c →
       dispatch (delete_post post_id) st = (error_page 500, st)
       ∧ get_BlogPost (db st') post_id = Some post
       ∧ c ∈ comments (db st')).
Proof.
  intros Hsid Huser Hpend Hpost st'. split.
  - intros Hnone.
    assert (Hst' : st' = with_db (without_post post_id (db st)) st).
    { subst st'. now rewrite (delete_post_childless st uid u post_id post). }
    rewrite Hst'. cbn [db with_db]. repeat apply conj.
    + now apply delete_post_childless with uid u post.
    + rewrite get_BlogPost_without. now rewrite bool_decide_eq_true_2.
    + intros q Hq. rewrite get_BlogPost_without. now rewrite bool_decide_eq_false_2.
  - intros c Hc Href.
    assert (Hsome : filter (references post_id) (comments (db st)) ≠ []).
    { intros Hnone. eapply filter_nil_not_elem_of; [exact Hnone | exact Href | exact Hc]. }
    assert (Hst' : st' = st).
    { subst st'. now rewrite (delete_post_refused st uid u post_id post). }
    rewrite Hst'. repeat apply conj; try assumption.
    now apply delete_post_refused with uid u post.
Qed.

Lemma delete_post_of_commented_post_witness :
  dispatch (delete_post 1) (Sample.state Sample.commented (Some 1))
  = (error_page 500, Sample.state Sample.commented (Some 1))
  ∧ get_BlogPost Sample.commented 1 = Some Sample.post_1
  ∧ Sample.comment_1 ∈ comments Sample.commented.
Proof.
  refine (proj2 (delete_post_of_commented_post
                   (Sample.state Sample.commented (Some 1)) 1 Sample.user_a 1 Sample.post_1
                   eq_refl eq_refl eq_refl eq_refl)
            Sample.comment_1 _ eq_refl).
  apply list_elem_of_here.
Defined.

(** ** The contact form *)

Lemma heard_prefix (w : World) (cs : list SMTPCommand) : heard w cs `prefix_of` cs.
Proof.
  induction cs as [|c cs IH]; cbn [heard].
  - apply prefix_nil.
  - destruct (relay_accepts w c).
    + now apply prefix_cons.
    + exists cs. reflexivity.
Qed.

Lemma heard_all (w : World) (cs : list SMTPCommand) :
  (∀ c, c ∈ cs → relay_accepts w c = true) → heard w cs = cs ∧ forallb (relay_accepts w) cs = true.
Proof.
  induction cs as [|c cs IH]; intros Hall; [now split|].
  cbn [heard forallb]. rewrite (Hall c) by apply list_elem_of_here.
  destruct IH as [-> ->]; [|now split].
  intros d Hd. apply Hall. now apply list_elem_of_further.
Qed.

Lemma forallb_refused (w : World) (cs : list SMTPCommand) (c : SMTPCommand) :
  c ∈ cs → relay_accepts w c = false → forallb (relay_accepts w) cs = false.
Proof.
  intros Hin Hc. induction cs as [|d cs IH]; [inversion Hin|].
  cbn [forallb]. apply elem_of_cons in Hin as [<-|Hin].
  - now rewrite Hc.
  - rewrite (IH Hin). apply andb_false_r.
Qed.

Lemma page_resolved (st : State) (r : Response) : session_resolves st → page st r = r.
Proof.
  unfold session_resolves, page. intros Hres.
  destruct (session_user_id st) as [uid|]; [|reflexivity].
  now destruct (Hres uid eq_refl) as [u ->].
Qed.

Lemma render_template_run (template : string) (form : TemplateForm) (is_edit : bool)
    (st : State) :
  render_template template form is_edit st
  = (match session_user_id st with
     | None => Ok (html template form is_edit)
     | Some uid =>
         match get_User (db st) uid with
         | Some _ => Ok (html template form is_edit)
         | None => Raise (HTTPException 404)
         end
     end, st).
Proof.
  unfold render_template, current_user, load_user, get_or_404. run.
  destruct (session_user_id st) as [uid|]; run; [|reflexivity].
  destruct (get_User (db st) uid); run; reflexivity.
Qed.

Lemma heard_refused (w : World) (cs ds : list SMTPCommand) (c : SMTPCommand) :
  c ∈ cs → relay_accepts w c = false → heard w (cs ++ ds) = heard w cs.
Proof.
  intros Hin Hc. induction cs as [|d cs IH]; [inversion Hin|].
  cbn [heard app]. destruct (relay_accepts w d) eqn:Hd; [|reflexivity].
  apply elem_of_cons in Hin as [<-|Hin]; [congruence|]. now rewrite (IH Hin).
Qed.

Lemma is_ascii_app (a b : string) : is_ascii (a +:+ b) = is_ascii a && is_ascii b.
Proof.
  induction a as [|[b0 b1 b2 b3 b4 b5 b6 b7] a IH]; [reflexivity|].
  change (is_ascii (String (Ascii.Ascii b0 b1 b2 b3 b4 b5 b6 b7) a +:+ b))
    with (negb b7 && is_ascii (a +:+ b)).
  rewrite IH. apply andb_assoc.
Qed.

(** The fixed parts of the mail are ASCII, so the text can be encoded
    exactly when the three submitted fields can. *)
Lemma is_ascii_contact_msg (name phone message : string) :
  is_ascii (contact_msg name phone message)
  = is_ascii name && is_ascii phone && is_ascii message.
Proof.
  unfold contact_msg. rewrite !is_ascii_app.
  change (is_ascii "Subject:New Message ") with true.
  change (is_ascii LF) with true.
  change (is_ascii "Name: ") with true.
  change (is_ascii "Phone no.: ") with true.
  change (is_ascii "Message: ") with true.
  cbn [andb]. now rewrite andb_assoc.
Qed.

Section Contact.
Context (ext : Externals) (world : World) (request : Request) (st : State).
Context (name phone message : string).
Hypothesis Hmethod : method request = POST.
Hypothesis Hname : form request !! "name" = Some name.
Hypothesis Hphone : form request !! "phone" = Some phone.
Hypothesis Hmessage : form request !! "message" = Some message.

Lemma contact_dispatch :
  dispatch (contact ext world request) st
  = (if forallb (relay_accepts world) (attempted ext name phone message)
        && is_ascii (contact_msg name phone message)
        && relay_accepts world SMTP_quit
     then page st (html "contact.html" no_form false)
     else error_page 500,
     with_pending []
       (with_smtp_log
          (smtp_log st ++ heard world (attempted ext name phone message) ++
           (if relay_accepts world (SMTP_connect "smtp.gmail.com" 587)
            then [SMTP_quit] else []))
          st)).
Proof.
  unfold contact. rewrite Hmethod. unfold dispatch. rewrite bind_run.
  unfold with_SMTP, sendmail, smtp, request_form. rewrite Hname, Hphone, Hmessage.
  unfold attempted, opening. cbn [forallb heard app].
  destruct (relay_accepts world (SMTP_connect _ _)); cbn [andb].
  2: { rewrite app_nil_r. reflexivity. }
  run. cbn [smtp_log with_smtp_log].
  destruct (relay_accepts world SMTP_starttls); cbn [andb].
  2: { destruct (relay_accepts world SMTP_quit); cbn; rewrite <- !app_assoc; reflexivity. }
  run. cbn [smtp_log with_smtp_log].
  destruct (relay_accepts world (SMTP_login _ _)); cbn [andb].
  2: { destruct (relay_accepts world SMTP_quit); cbn; rewrite <- !app_assoc; reflexivity. }
  run. cbn [smtp_log with_smtp_log].
  destruct (is_ascii (contact_msg name phone message)); cbn [forallb heard andb].
  2: { run. destruct (relay_accepts world SMTP_quit); cbn; rewrite <- !app_assoc; reflexivity. }
  destruct (relay_accepts world (SMTP_sendmail _ _ _)); cbn [andb].
  2: { destruct (relay_accepts world SMTP_quit); cbn; rewrite <- !app_assoc; reflexivity. }
  cbn [smtp_log with_smtp_log].
  destruct (relay_accepts world SMTP_quit).
  2: { cbn. rewrite <- !app_assoc. reflexivity. }
  rewrite render_template_run. unfold page.
  cbn [session_user_id db with_smtp_log with_pending].
  destruct (session_user_id st) as [uid|]; [destruct (get_User (db st) uid)|];
    cbn; rewrite <- !app_assoc; reflexivity.
Qed.
End Contact.

(** C9.  What a POST to [contact] carrying name, phone and message
    does.  It opens one conversation with the relay and never a second
    one: what the relay hears is a prefix of connect, STARTTLS, login
    with the operator's credentials, and one [sendmail] from the
    operator's address to the operator's address whose text starts with
    the subject line "New Message" and carries the three submitted
    fields, followed by QUIT once the connection stood.  Nothing is
    flashed and the tables and the session are as before.  When the
    three fields are ASCII and the relay accepts every command, that one
    mail is sent and [contact.html] is the answer.  When a field has a
    character outside ASCII, the text cannot be encoded: no mail is
    sent, although the relay accepted the login, and the request ends
    with status 500.  When the relay refuses a command (the connection,
    the credentials, the mail, the closing QUIT), nothing catches the
    exception and the request ends with status 500; a command refused
    before the mail means that the mail is not sent either. *)
Theorem contact_post
    (ext : Externals) (world : World) (request : Request) (st : State)
    (name phone message : string) :
  method request = POST →
  form request !! "name" = Some name →
  form request !! "phone" = Some phone →
  form request !! "message" = Some message →
  let mail :=
    SMTP_sendmail (my_email ext) (my_email ext)
      ("Subject:New Message " +:+ LF +:+ LF +:+
       "Name: " +:+ name +:+ LF +:+
       "Phone no.: " +:+ phone +:+ LF +:+
       "Message: " +:+ message) in
  let before :=
    [SMTP_connect "smtp.gmail.com" 587; SMTP_starttls;
     SMTP_login (my_email ext) (my_pass ext)] in
  let resp := fst (dispatch (contact ext world request) st) in
  let st' := snd (dispatch (contact ext world request) st) in
  (∃ said, said `prefix_of` before ++ [mail]
           ∧ (smtp_log st' = smtp_log st ++ said ∨ smtp_log st' = smtp_log st ++ said ++ [SMTP_quit]))
  ∧ db st' = db st
  ∧ flashes st' = flashes st
  ∧ session_user_id st' = session_user_id st
  ∧ (is_ascii name && is_ascii phone && is_ascii message = true →
     (∀ c, c ∈ before ++ [mail; SMTP_quit] → relay_accepts world c = true) →
       smtp_log st' = smtp_log st ++ before ++ [mail; SMTP_quit]
       ∧ (session_resolves st → resp = html "contact.html" no_form false))
  ∧ (is_ascii name && is_ascii phone && is_ascii message = false →
     (∀ c, c ∈ before → relay_accepts world c = true) →
       resp = error_page 500
       ∧ smtp_log st' = smtp_log st ++ before ++ [SMTP_quit])
  ∧ (∀ c, c ∈ before → relay_accepts world c = false →
       resp = error_page 500
       ∧ smtp_log st' = smtp_log st ++ heard world before ++
                        (if relay_accepts world (SMTP_connect "smtp.gmail.com" 587)
                         then [SMTP_quit] else [])
       ∧ mail ∉ heard world before)
  ∧ (relay_accepts world mail = false ∨ relay_accepts world SMTP_quit = false →
       resp = error_page 500).
Proof.
  intros Hmethod Hname Hphone Hmessage mail before resp st'.
  pose proof (contact_dispatch ext world request st name phone message
                Hmethod Hname Hphone Hmessage) as Hrun.
  pose proof (is_ascii_contact_msg name phone message) as Hascii.
  unfold attempted in Hrun.
  change (opening ext) with before in Hrun.
  change (SMTP_sendmail (my_email ext) (my_email ext) (contact_msg name phone message))
    with mail in Hrun.
  subst resp st'. rewrite Hrun. rewrite Hascii.
  cbn [fst snd db flashes session_user_id smtp_log with_pending with_smtp_log].
  repeat apply conj; try reflexivity.
  - exists (heard world
              (before ++
               if is_ascii name && is_ascii phone && is_ascii message then [mail] else [])).
    split.
    + etrans; [apply heard_prefix|].
      destruct (is_ascii name && is_ascii phone && is_ascii message);
        [reflexivity | exists [mail]; now rewrite app_nil_r].
    + destruct (relay_accepts world (SMTP_connect _ _)); [now right|left].
      now rewrite app_nil_r.
  - intros -> Hall.
    assert (Htalk : ∀ c, c ∈ before ++ [mail] → relay_accepts world c = true).
    { intros c Hc. apply Hall. apply elem_of_app in Hc as [Hc|Hc].
      - apply elem_of_app. now left.
      - apply elem_of_app. right. apply list_elem_of_singleton in Hc. subst c.
        apply list_elem_of_here. }
    destruct (heard_all world _ Htalk) as [Hheard Hforall].
    rewrite Hheard, Hforall.
    rewrite (Hall (SMTP_connect "smtp.gmail.com" 587)) by apply list_elem_of_here.
    rewrite (Hall SMTP_quit)
      by (apply elem_of_app; right; apply list_elem_of_further, list_elem_of_here).
    cbn [andb]. split; [now rewrite <- app_assoc|].
    intros Hres. now apply page_resolved.
  - intros -> Hall. rewrite app_nil_r.
    destruct (heard_all world _ Hall) as [Hheard Hforall].
    rewrite Hheard, Hforall.
    rewrite (Hall (SMTP_connect "smtp.gmail.com" 587)) by apply list_elem_of_here.
    cbn [andb]. now split.
  - intros c Hc Hrefused.
    rewrite (heard_refused world before _ c Hc Hrefused).
    rewrite (forallb_refused world _ c) by (try apply elem_of_app; auto).
    cbn [andb]. repeat apply conj; try reflexivity.
    intros Hin. pose proof (heard_prefix world before) as [rest Hrest].
    assert (Hmail : mail ∈ before) by (rewrite Hrest; apply elem_of_app; now left).
    subst before mail.
    repeat (apply elem_of_cons in Hmail as [Hmail|Hmail]; [discriminate Hmail|]).
    inversion Hmail.
  - intros [Hmail|Hquit].
    + destruct (is_ascii name && is_ascii phone && is_ascii message);
        [|now rewrite andb_false_r].
      rewrite (forallb_refused world _ mail); [reflexivity| |exact Hmail].
      apply elem_of_app. right. apply list_elem_of_here.
    + rewrite Hquit. now rewrite andb_false_r.
Qed.

Lemma contact_post_witness :
  (fst (dispatch (contact Sample.ext Sample.world accented_contact_request)
          (Sample.state Sample.empty_db None)) = error_page 500
   ∧ smtp_log (snd (dispatch (contact Sample.ext Sample.world accented_contact_request)
                      (Sample.state Sample.empty_db None)))
     = [SMTP_connect "smtp.gmail.com" 587; SMTP_starttls;
        SMTP_login "owner@x.com" "app-token"; SMTP_quit])
  ∧ smtp_log (snd (dispatch (contact Sample.ext Sample.world contact_request)
                     (Sample.state Sample.empty_db None)))
    = [SMTP_connect "smtp.gmail.com" 587; SMTP_starttls;
       SMTP_login "owner@x.com" "app-token";
       SMTP_sendmail "owner@x.com" "owner@x.com"
         ("Subject:New Message " +:+ LF +:+ LF +:+ "Name: N" +:+ LF +:+
          "Phone no.: 555" +:+ LF +:+ "Message: hello");
       SMTP_quit]
  ∧ fst (dispatch (contact Sample.ext rejecting_world contact_request)
           (Sample.state Sample.empty_db None)) = error_page 500
  ∧ fst (dispatch (contact Sample.ext lingering_world contact_request)
           (Sample.state Sample.empty_db None)) = error_page 500.
Proof.
  pose proof (contact_post Sample.ext Sample.world accented_contact_request
                (Sample.state Sample.empty_db None) "N" "555" ("caf" +:+ e_acute)
                eq_refl eq_refl eq_refl eq_refl) as Haccented.
  pose proof (contact_post Sample.ext Sample.world contact_request
                (Sample.state Sample.empty_db None) "N" "555" "hello"
                eq_refl eq_refl eq_refl eq_refl) as Hplain.
  pose proof (contact_post Sample.ext rejecting_world contact_request
                (Sample.state Sample.empty_db None) "N" "555" "hello"
                eq_refl eq_refl eq_refl eq_refl) as Hrejecting.
  pose proof (contact_post Sample.ext lingering_world contact_request
                (Sample.state Sample.empty_db None) "N" "555" "hello"
                eq_refl eq_refl eq_refl eq_refl) as Hlingering.
  cbv zeta in Haccented, Hplain, Hrejecting, Hlingering.
  destruct Haccented as (_ & _ & _ & _ & _ & Haccented & _).
  destruct Hplain as (_ & _ & _ & _ & Hplain & _).
  destruct Hrejecting as (_ & _ & _ & _ & _ & _ & Hrejecting & _).
  destruct Hlingering as (_ & _ & _ & _ & _ & _ & _ & Hlingering).
  repeat apply conj.
  - apply Haccented; [reflexivity|]. intros c _. reflexivity.
  - apply Haccented; [reflexivity|]. intros c _. reflexivity.
  - apply Hplain; [reflexivity|]. intros c _. reflexivity.
  - apply (Hrejecting (SMTP_login "owner@x.com" "app-token")); [|reflexivity].
    apply list_elem_of_further, list_elem_of_further, list_elem_of_here.
  - apply Hlingering. right. reflexivity.
Defined.

(** * The rest of the application *)

(** ** The sample tables are well formed *)

Ltac not_listed :=
  let H := fresh in
  intros H; repeat (apply elem_of_cons in H as [H|H]; [discriminate H|]); inversion H.

Ltac by_computation :=
  unfold unique_emails, unique_titles; cbn;
  repeat (apply NoDup_cons_2; [not_listed|]); apply NoDup_nil_2.

Lemma one_post_constraints : constraints Sample.one_post.
Proof. split; by_computation. Qed.

Lemma two_posts_constraints : constraints Sample.two_posts.
Proof. split; by_computation. Qed.

Lemma one_post_foreign_keys : foreign_keys Sample.one_post.
Proof.
  split; intros x Hx; cbn in Hx.
  - apply list_elem_of_singleton in Hx. subst x. now exists Sample.user_a.
  - inversion Hx.
  - inversion Hx.
Qed.

Lemma resolved_one : session_resolves (Sample.state Sample.one_post (Some 1)).
Proof. intros uid Hsid. injection Hsid as <-. now exists Sample.user_a. Qed.

Lemma fresh_email_b : ∀ u, u ∈ users Sample.one_post → User.email u ≠ "b@x.com".
Proof.
  intros u Hu. cbn in Hu. apply list_elem_of_singleton in Hu. subst u. discriminate.
Qed.

(** The four visits of [Scenario.visits], run from the sample tables. *)
Example visits_run :
  db (serve_all Sample.ext Scenario.comment_form Scenario.visits
        (Sample.state Sample.one_post None))
  = mkStore [Sample.user_a; Scenario.user_b] [BlogPost.mk 2 2 "Second" "S2" "April 03, 2025" "B2" "http://x/img2.png"]
      [Comment.mk 1 1 (Some 2) "Nice!"].
Proof. vm_compute. reflexivity. Qed.

(** ** Running a view on every path *)

Lemma flush_nil (s : Store) : flush [] s = Some (s, []).
Proof. reflexivity. Qed.

Ltac exec_unfold :=
  unfold gets, modify, flash, abort, raise, db_session_add, login_user,
    current_user, load_user, get_or_404, admin_only, render_template, sendmail, smtp,
    with_SMTP, request_form, db_session_commit, logout_user, db_session_add_comment_commit.

Ltac exec_split :=
  match goal with
  | |- context [match ?x with _ => _ end] =>
      lazymatch x with
      | context [match _ with _ => _ end] => fail
      | context [mbind] => fail
      | _ => destruct x eqn:?
      end
  end.

Ltac exec :=
  repeat first
    [ rewrite bind_run
    | rewrite ret_run
    | rewrite flush_nil
    | progress exec_unfold
    | progress cbn [fst snd db pending session_user_id flashes smtp_log binds
                    with_db with_pending with_session_user_id with_flashes with_smtp_log app]
    | progress cbv beta zeta
    | exec_split ].

Lemma get_User_id (s : Store) (uid : Z) (u : User.t) :
  get_User s uid = Some u → is_Some (get_User s (User.id u)).
Proof. intros H. destruct (get_User_spec _ _ _ H) as [_ ->]. now exists u. Qed.

Lemma get_BlogPost_id (s : Store) (pk : Z) (p : BlogPost.t) :
  get_BlogPost s pk = Some p → is_Some (get_BlogPost s (BlogPost.id p)).
Proof. intros H. destruct (get_BlogPost_spec _ _ _ H) as [_ ->]. now exists p. Qed.

Ltac changes_ok :=
  repeat first
    [ apply Forall_nil
    | apply Forall_cons; split
    | exact I
    | eapply get_User_id; eassumption ].

Ltac step_done :=
  split;
  [ first
      [ apply step_same
      | eapply step_flush; [|eassumption]; cbn [change_ok]; changes_ok
      | eapply step_comment; [eapply get_User_id; eassumption | eapply get_BlogPost_id; eassumption] ]
  | reflexivity ].

Section Steps.
Context (ext : Externals) (CommentForm : Request → FlaskForm).

Lemma full_dispatch_step world request e s sid fl log :
  let r := full_dispatch_request ext CommentForm world request e (mkState s [] sid fl log) in
  step_db s (db r.2) ∧ pending r.2 = [].
Proof.
  intros r. subst r. unfold full_dispatch_request, dispatch.
  destruct (bool_decide (method request ∈ methods e)); [|exec; step_done].
  destruct e; unfold view_function, response_of, get_all_posts, register, login, logout,
    show_post, add_new_post, edit_post, edit_post_wrapped, delete_post, delete_post_wrapped,
    about, contact.
  all: exec.
  all: try step_done.
Qed.
End Steps.

(** ** The tables under a flush *)

Lemma find_app_found {A} (f : A → bool) (l l' : list A) (x : A) :
  List.find f l = Some x → List.find f (l ++ l') = Some x.
Proof.
  induction l as [|y l IH]; cbn; [discriminate|].
  destruct (f y); [trivial | exact IH].
Qed.

Lemma get_User_prefix (s s' : Store) (uid : Z) (u : User.t) :
  users s `prefix_of` users s' → get_User s uid = Some u → get_User s' uid = Some u.
Proof.
  intros [l Hl] Hget. unfold get_User in *. rewrite Hl. now apply find_app_found.
Qed.

Lemma flush_one_users (c : Change) (s s' : Store) (ks : list Z) :
  flush_one c s = Some (s', ks) → users s `prefix_of` users s'.
Proof.
  destruct c as [n e p|t sub b i a d|pk a v|pk uid|pk]; cbn [flush_one]; intros H.
  - case_bool_decide; [discriminate|]. injection H as <- _. cbn. now apply prefix_app_r.
  - case_bool_decide; [discriminate|]. now injection H as <- _.
  - destruct a; repeat case_bool_decide; try discriminate; now injection H as <- _.
  - now injection H as <- _.
  - destruct (_ || _); [|discriminate]. now injection H as <- _.
Qed.

Lemma flush_users (cs : list Change) (s s' : Store) (ks : list Z) :
  flush cs s = Some (s', ks) → users s `prefix_of` users s'.
Proof.
  revert s ks. induction cs as [|c cs IH]; intros s ks; cbn [flush].
  - now intros [= <- _].
  - destruct (flush_one c s) as [[s1 k1]|] eqn:E1; [|discriminate].
    destruct (flush cs s1) as [[s2 k2]|] eqn:E2; [|discriminate].
    intros [= <- _]. etrans; [eapply flush_one_users | eapply IH]; eassumption.
Qed.

Lemma step_db_users (s s' : Store) : step_db s s' → users s `prefix_of` users s'.
Proof.
  intros [|cs ks s1 _ Hflush|text a pk _ _]; [reflexivity| |reflexivity].
  eapply flush_users; eassumption.
Qed.

Lemma next_id_fresh (ids : list Z) : next_id ids ∉ ids.
Proof. intros Hin. apply next_id_above in Hin. lia. Qed.

Lemma NoDup_snoc_key {A B} (key : A → B) (l : list A) (x : A) :
  NoDup (map key l) → key x ∉ map key l → NoDup (map key (l ++ [x])).
Proof.
  intros Hnd Hx. rewrite map_app. apply NoDup_app. repeat split; [exact Hnd| |].
  - intros k Hk Hin. cbn in Hin. apply list_elem_of_singleton in Hin. now subst k.
  - cbn. apply NoDup_singleton.
Qed.

Lemma NoDup_filter_key {A B} (key : A → B) (P : A → Prop) `{∀ x, Decision (P x)}
    (l : list A) :
  NoDup (map key l) → NoDup (map key (filter P l)).
Proof.
  induction l as [|x l IH]; [trivial|]. cbn [map]. intros Hnd.
  apply NoDup_cons in Hnd as [Hx Hnd].
  destruct (decide (P x)).
  - rewrite filter_cons_True by assumption. cbn [map]. apply NoDup_cons. split; [|auto].
    intros Hin. apply Hx. apply list_elem_of_fmap in Hin as (y & -> & Hy).
    apply list_elem_of_filter in Hy as [_ Hy]. apply list_elem_of_fmap. now exists y.
  - rewrite filter_cons_False by assumption. auto.
Qed.

Lemma update_keeps_column {B} (col : BlogPost.t → B) (pk : Z)
    (f : BlogPost.t → BlogPost.t) (ps : list BlogPost.t) :
  (∀ p, col (f p) = col p) → map col (map (updated pk f) ps) = map col ps.
Proof.
  intros Hcol. rewrite map_map. apply map_ext. intros p. unfold updated.
  now destruct (bool_decide _).
Qed.

Lemma update_absent (pk : Z) (f : BlogPost.t → BlogPost.t) (ps : list BlogPost.t) :
  pk ∉ map BlogPost.id ps → map (updated pk f) ps = ps.
Proof.
  induction ps as [|p ps IH]; [trivial|]. cbn [map]. intros Hpk.
  apply not_elem_of_cons in Hpk as [Hp Hps]. unfold updated at 1.
  rewrite bool_decide_eq_false_2 by congruence. f_equal. auto.
Qed.

Lemma filter_others_absent (pk : Z) (ps : list BlogPost.t) :
  pk ∉ map BlogPost.id ps → filter (λ p, BlogPost.id p ≠ pk) ps = ps.
Proof.
  induction ps as [|p ps IH]; [trivial|]. cbn [map]. intros Hpk.
  apply not_elem_of_cons in Hpk as [Hp Hps].
  rewrite filter_cons_True by congruence. f_equal. auto.
Qed.

Lemma retitle_unique (pk : Z) (v : string) (ps : list BlogPost.t) :
  NoDup (map BlogPost.id ps) →
  NoDup (map BlogPost.title ps) →
  v ∉ map BlogPost.title (filter (λ p, BlogPost.id p ≠ pk) ps) →
  NoDup (map BlogPost.title (map (updated pk (BlogPost.setattr BlogPost.Title v)) ps)).
Proof.
  induction ps as [|p ps IH]; [trivial|]. cbn [map]. intros Hids Htitles Hv.
  apply NoDup_cons in Hids as [Hid Hids]. apply NoDup_cons in Htitles as [Ht Htitles].
  destruct (decide (BlogPost.id p = pk)) as [Hp|Hp].
  - rewrite filter_cons_False in Hv by (intros Hne; now apply Hne).
    subst pk. rewrite filter_others_absent in Hv by exact Hid.
    rewrite update_absent by exact Hid.
    unfold updated. rewrite bool_decide_eq_true_2 by reflexivity.
    apply NoDup_cons. split; [exact Hv | exact Htitles].
  - rewrite filter_cons_True in Hv by exact Hp. cbn [map] in Hv.
    apply not_elem_of_cons in Hv as [Hvp Hv].
    unfold updated at 1. rewrite bool_decide_eq_false_2 by exact Hp.
    apply NoDup_cons. split; [|now apply IH].
    intros Hin. apply list_elem_of_fmap in Hin as (q' & Hq' & Hin).
    apply list_elem_of_fmap in Hin as (q & -> & Hq). unfold updated in Hq'.
    destruct (bool_decide (BlogPost.id q = pk)).
    + cbn in Hq'. congruence.
    + apply Ht. rewrite Hq'. apply list_elem_of_fmap. now exists q.
Qed.

Lemma orphan_keeps_keys (pk : Z) (cs : list Comment.t) :
  map Comment.id
    (map (λ c, if bool_decide (references pk c) then Comment.set_post_id None c else c) cs)
  = map Comment.id cs.
Proof.
  rewrite map_map. apply map_ext. intros c. now destruct (bool_decide _).
Qed.

Lemma update_post_tables (pk : Z) (f : BlogPost.t → BlogPost.t) (s : Store) :
  users (update_post pk f s) = users s
  ∧ comments (update_post pk f s) = comments s
  ∧ blog_posts (update_post pk f s) = map (updated pk f) (blog_posts s).
Proof. now destruct s. Qed.

Lemma update_post_constraints (pk : Z) (f : BlogPost.t → BlogPost.t) (s : Store) :
  (∀ p, BlogPost.id (f p) = BlogPost.id p) →
  constraints s →
  NoDup (map BlogPost.title (map (updated pk f) (blog_posts s))) →
  constraints (update_post pk f s).
Proof.
  intros Hid [Huk Hue Hpk Hpt Hck] Htitles.
  destruct (update_post_tables pk f s) as (Hu & Hc & Hp).
  split; unfold unique_emails, unique_titles; rewrite ?Hu, ?Hc, ?Hp; try assumption.
  now rewrite update_keeps_column.
Qed.

Lemma flush_one_constraints (c : Change) (s s' : Store) (ks : list Z) :
  constraints s → flush_one c s = Some (s', ks) → constraints s'.
Proof.
  intros Hs. pose proof Hs as [Huk Hue Hpk Hpt Hck].
  destruct c as [n e p|t sub b i a d|pk a v|pk uid|pk]; cbn [flush_one]; intros H.
  - case_bool_decide as He; [discriminate|]. injection H as <- _.
    split; cbn; try assumption.
    + apply (NoDup_snoc_key User.id); [assumption | apply next_id_fresh].
    + unfold unique_emails. cbn. now apply (NoDup_snoc_key User.email).
  - case_bool_decide as Ht; [discriminate|]. injection H as <- _.
    split; cbn; try assumption.
    + apply (NoDup_snoc_key BlogPost.id); [assumption | apply next_id_fresh].
    + unfold unique_titles. cbn. now apply (NoDup_snoc_key BlogPost.title).
  - destruct a.
    + case_bool_decide as Hv; [discriminate|]. injection H as <- _.
      apply update_post_constraints; [reflexivity | assumption |].
      now apply retitle_unique.
    + injection H as <- _. apply update_post_constraints; [reflexivity | assumption |].
      now rewrite update_keeps_column.
    + injection H as <- _. apply update_post_constraints; [reflexivity | assumption |].
      now rewrite update_keeps_column.
    + injection H as <- _. apply update_post_constraints; [reflexivity | assumption |].
      now rewrite update_keeps_column.
  - injection H as <- _. apply update_post_constraints; [reflexivity | assumption |].
    now rewrite update_keeps_column.
  - destruct (_ || _); [|discriminate]. injection H as <- _.
    split; cbn; try assumption.
    + now apply NoDup_filter_key.
    + unfold unique_titles. cbn. now apply NoDup_filter_key.
    + now rewrite orphan_keeps_keys.
Qed.

Lemma flush_constraints (cs : list Change) (s s' : Store) (ks : list Z) :
  constraints s → flush cs s = Some (s', ks) → constraints s'.
Proof.
  revert s ks. induction cs as [|c cs IH]; intros s ks Hs; cbn [flush].
  - now intros [= <- _].
  - destruct (flush_one c s) as [[s1 k1]|] eqn:E1; [|discriminate].
    destruct (flush cs s1) as [[s2 k2]|] eqn:E2; [|discriminate].
    intros [= <- _]. eapply IH; [|eassumption]. eapply flush_one_constraints; eassumption.
Qed.

Lemma step_db_constraints (s s' : Store) : step_db s s' → constraints s → constraints s'.
Proof.
  intros [|cs ks s1 _ Hflush|text a pk _ _] Hs; [assumption| |].
  - eapply flush_constraints; eassumption.
  - destruct Hs as [Huk Hue Hpk Hpt Hck]. split; cbn; try assumption.
    apply (NoDup_snoc_key Comment.id); [assumption | apply next_id_fresh].
Qed.

Lemma foreign_keys_intro (s s' : Store) :
  users s `prefix_of` users s' →
  (∀ p, p ∈ blog_posts s' → is_Some (get_User s (BlogPost.author_id p))) →
  (∀ c, c ∈ comments s' → is_Some (get_User s (Comment.author_id c))) →
  (∀ c, c ∈ comments s' → ∃ pk, Comment.post_id c = Some pk ∧ is_Some (get_BlogPost s' pk)) →
  foreign_keys s'.
Proof.
  intros Hu Hp Hc Hcp. split; [| |exact Hcp].
  - intros p Hin. destruct (Hp p Hin) as [u Hget]. exists u. now apply (get_User_prefix s).
  - intros c Hin. destruct (Hc c Hin) as [u Hget]. exists u. now apply (get_User_prefix s).
Qed.

Lemma get_BlogPost_ext (s s' : Store) (pk : Z) :
  blog_posts s' = blog_posts s → get_BlogPost s' pk = get_BlogPost s pk.
Proof. unfold get_BlogPost. now intros ->. Qed.

Lemma get_BlogPost_app (s s' : Store) (l : list BlogPost.t) (pk : Z) :
  blog_posts s' = blog_posts s ++ l →
  is_Some (get_BlogPost s pk) → is_Some (get_BlogPost s' pk).
Proof.
  unfold get_BlogPost. intros -> [p Hp]. exists p. now apply find_app_found.
Qed.

Lemma update_post_foreign_keys (pk : Z) (f : BlogPost.t → BlogPost.t) (s : Store) :
  (∀ p, BlogPost.id (f p) = BlogPost.id p) →
  (∀ p, is_Some (get_User s (BlogPost.author_id p)) →
        is_Some (get_User s (BlogPost.author_id (f p)))) →
  foreign_keys s → foreign_keys (update_post pk f s).
Proof.
  intros Hid Hauthor [Hpa Hca Hcp].
  destruct (update_post_tables pk f s) as (Hu & Hc & Hp).
  apply (foreign_keys_intro s); rewrite ?Hu, ?Hc, ?Hp; [reflexivity | | exact Hca |].
  - intros p' Hin. apply list_elem_of_fmap in Hin as (p & -> & Hin). unfold updated.
    destruct (bool_decide _); auto.
  - intros c Hin. destruct (Hcp c Hin) as (q & Hq & [p Hget]). exists q. split; [exact Hq|].
    rewrite (get_BlogPost_update pk f s q Hid), Hget. now destruct (bool_decide _).
Qed.

Lemma flush_one_foreign_keys (c : Change) (s s' : Store) (ks : list Z) :
  foreign_keys s → change_ok s c → flush_one c s = Some (s', ks) → foreign_keys s'.
Proof.
  intros Hs Hok. pose proof Hs as [Hpa Hca Hcp].
  destruct c as [n e p|t sub b i a d|pk a v|pk uid|pk]; cbn [flush_one]; intros H.
  - case_bool_decide; [discriminate|]. injection H as <- _.
    apply (foreign_keys_intro s); cbn [users blog_posts comments with_users with_blog_posts with_comments]; [now apply prefix_app_r | exact Hpa | exact Hca |].
    intros c Hin. destruct (Hcp c Hin) as (q & Hq & Hget). exists q. split; [exact Hq|].
    now rewrite (get_BlogPost_ext s).
  - case_bool_decide; [discriminate|]. injection H as <- _.
    apply (foreign_keys_intro s); cbn [users blog_posts comments with_users with_blog_posts with_comments]; [reflexivity | | exact Hca |].
    + intros p Hin. apply elem_of_app in Hin as [Hin|Hin]; [now apply Hpa|].
      apply list_elem_of_singleton in Hin. subst p. exact Hok.
    + intros c Hin. destruct (Hcp c Hin) as (q & Hq & Hget). exists q. split; [exact Hq|].
      eapply get_BlogPost_app; [reflexivity | exact Hget].
  - destruct a; repeat case_bool_decide; try discriminate; injection H as <- _;
      (apply update_post_foreign_keys; [reflexivity | trivial | assumption]).
  - injection H as <- _. apply update_post_foreign_keys; [reflexivity | | assumption].
    intros p _. exact Hok.
  - case_bool_decide as Hnone; cbn [orb comments_post_id_nullable] in H; [|discriminate].
    injection H as <- _. rewrite (orphan_nobody pk (comments s) Hnone).
    apply (foreign_keys_intro s); cbn [users blog_posts comments with_users with_blog_posts with_comments]; [reflexivity | | exact Hca |].
    + intros p Hin. apply list_elem_of_filter in Hin as [_ Hin]. now apply Hpa.
    + intros c Hin. destruct (Hcp c Hin) as (q & Hq & Hget). exists q. split; [exact Hq|].
      assert (q ≠ pk).
      { intros ->. eapply filter_nil_not_elem_of; [exact Hnone | exact Hq | exact Hin]. }
      change (is_Some (get_BlogPost (without_post pk s) q)).
      rewrite get_BlogPost_without. now rewrite bool_decide_eq_false_2.
Qed.

Lemma change_ok_prefix (s s' : Store) (c : Change) :
  users s `prefix_of` users s' → change_ok s c → change_ok s' c.
Proof.
  intros Hu. destruct c; cbn [change_ok]; trivial;
    intros [u Hget]; exists u; now apply (get_User_prefix s).
Qed.

Lemma flush_foreign_keys (cs : list Change) (s s' : Store) (ks : list Z) :
  foreign_keys s → Forall (change_ok s) cs → flush cs s = Some (s', ks) → foreign_keys s'.
Proof.
  revert s ks. induction cs as [|c cs IH]; intros s ks Hs Hok; cbn [flush].
  - now intros [= <- _].
  - destruct (flush_one c s) as [[s1 k1]|] eqn:E1; [|discriminate].
    destruct (flush cs s1) as [[s2 k2]|] eqn:E2; [|discriminate].
    intros [= <- _]. apply Forall_cons in Hok as [Hc Hcs].
    eapply IH; [|  |eassumption].
    + eapply flush_one_foreign_keys; eassumption.
    + eapply Forall_impl; [exact Hcs|]. intros c'. apply change_ok_prefix.
      eapply flush_one_users; eassumption.
Qed.

Lemma step_db_foreign_keys (s s' : Store) :
  step_db s s' → foreign_keys s → foreign_keys s'.
Proof.
  intros [|cs ks s1 Hok Hflush|text a pk Ha Hpk] Hs; [assumption| |].
  - eapply flush_foreign_keys; eassumption.
  - pose proof Hs as [Hpa Hca Hcp].
    apply (foreign_keys_intro s); cbn [users blog_posts comments with_users with_blog_posts with_comments]; [reflexivity | exact Hpa | |].
    + intros c Hin. apply elem_of_app in Hin as [Hin|Hin]; [now apply Hca|].
      apply list_elem_of_singleton in Hin. now subst c.
    + intros c Hin. apply elem_of_app in Hin as [Hin|Hin].
      * destruct (Hcp c Hin) as (q & Hq & Hget). exists q. split; [exact Hq|].
        now rewrite (get_BlogPost_ext s).
      * apply list_elem_of_singleton in Hin. subst c. exists pk. split; [reflexivity|].
        now rewrite (get_BlogPost_ext s).
Qed.

Section Serving.
Context (ext : Externals) (CommentForm : Request → FlaskForm).

Lemma serve_step (v : Visit) (st : State) :
  pending st = [] →
  step_db (db st) (db (serve ext CommentForm v st))
  ∧ pending (serve ext CommentForm v st) = [].
Proof.
  destruct st as [s pend sid fl log]. cbn [pending]. intros ->.
  apply (full_dispatch_step ext CommentForm).
Qed.

Lemma serve_all_app (vs : list Visit) (v : Visit) (st : State) :
  serve_all ext CommentForm (vs ++ [v]) st
  = serve ext CommentForm v (serve_all ext CommentForm vs st).
Proof. unfold serve_all. now rewrite fold_left_app. Qed.

Lemma serve_all_steps (vs : list Visit) (st : State) :
  pending st = [] →
  pending (serve_all ext CommentForm vs st) = []
  ∧ users (db st) `prefix_of` users (db (serve_all ext CommentForm vs st))
  ∧ (constraints (db st) → constraints (db (serve_all ext CommentForm vs st)))
  ∧ (foreign_keys (db st) → foreign_keys (db (serve_all ext CommentForm vs st))).
Proof.
  intros Hpend. induction vs as [|v vs IH] using rev_ind.
  - cbn. split; [exact Hpend|]. split; [reflexivity|]. split; trivial.
  - rewrite serve_all_app. destruct IH as (Hp & Hu & Hc & Hf).
    destruct (serve_step v _ Hp) as [Hstep Hp'].
    split; [exact Hp'|]. split; [|split].
    + etrans; [exact Hu | now apply step_db_users].
    + intros Hs. eapply step_db_constraints; eauto.
    + intros Hs. eapply step_db_foreign_keys; eauto.
Qed.
End Serving.

(** X1.  Whatever request is served (any rule of the URL map, any
    method and form, any session cookie), the primary keys of the three
    tables stay distinct and user emails and post titles stay unique. *)
Theorem serve_keeps_constraints
    (ext : Externals) (CommentForm : Request → FlaskForm) (v : Visit) (st : State) :
  pending st = [] →
  constraints (db st) →
  constraints (db (serve ext CommentForm v st)).
Proof.
  intros Hpend Hs. destruct (serve_step ext CommentForm v st Hpend) as [Hstep _].
  now apply (step_db_constraints (db st)).
Qed.

Lemma serve_keeps_constraints_witness :
  constraints
    (db (serve Sample.ext Scenario.comment_form
           (mkVisit (Some 1) Sample.world Scenario.new_post at_add_new_post)
           (Sample.state Sample.one_post None))).
Proof.
  apply serve_keeps_constraints; [reflexivity | exact one_post_constraints].
Defined.

(** X2.  Whatever request is served, the foreign keys stay valid: the
    author of every post and of every comment is a stored user, and
    every comment names a stored post. *)
Theorem serve_keeps_foreign_keys
    (ext : Externals) (CommentForm : Request → FlaskForm) (v : Visit) (st : State) :
  pending st = [] →
  foreign_keys (db st) →
  foreign_keys (db (serve ext CommentForm v st)).
Proof.
  intros Hpend Hs. destruct (serve_step ext CommentForm v st Hpend) as [Hstep _].
  now apply (step_db_foreign_keys (db st)).
Qed.

Lemma serve_keeps_foreign_keys_witness :
  foreign_keys
    (db (serve Sample.ext Scenario.comment_form
           (mkVisit (Some 1) Sample.world Scenario.comment (at_show_post 1))
           (Sample.state Sample.one_post None))).
Proof.
  apply serve_keeps_foreign_keys; [reflexivity | exact one_post_foreign_keys].
Defined.

(** X3.  Starting from the empty tables of [db.create_all()], every
    sequence of requests leaves tables that satisfy the key and
    uniqueness constraints and the foreign keys, with nothing left in
    the unit of work. *)
Theorem reachable_consistent
    (ext : Externals) (CommentForm : Request → FlaskForm) (vs : list Visit) :
  constraints (db (serve_all ext CommentForm vs initial))
  ∧ foreign_keys (db (serve_all ext CommentForm vs initial))
  ∧ pending (serve_all ext CommentForm vs initial) = [].
Proof.
  destruct (serve_all_steps ext CommentForm vs initial eq_refl) as (Hp & _ & Hc & Hf).
  split; [|split].
  - apply Hc. split; cbn; apply NoDup_nil_2.
  - apply Hf. split; cbn; intros x Hx; inversion Hx.
  - exact Hp.
Qed.

(** X4.  No sequence of requests deletes or alters a user: a key that
    [db.get] resolved to a row still resolves to the same row (same
    email, same password hash), so a session that resolves keeps
    resolving. *)
Theorem accounts_are_kept
    (ext : Externals) (CommentForm : Request → FlaskForm) (vs : list Visit) (st : State)
    (uid : Z) (u : User.t) :
  pending st = [] →
  get_User (db st) uid = Some u →
  get_User (db (serve_all ext CommentForm vs st)) uid = Some u.
Proof.
  intros Hpend Hget.
  destruct (serve_all_steps ext CommentForm vs st Hpend) as (_ & Hu & _).
  now apply (get_User_prefix (db st)).
Qed.

Lemma accounts_are_kept_witness :
  get_User
    (db (serve_all Sample.ext Scenario.comment_form Scenario.visits
           (Sample.state Sample.one_post None))) 1
  = Some Sample.user_a.
Proof. apply accounts_are_kept; reflexivity. Defined.

Lemma flush_add_post_inv (title subtitle body img_url : string) (author_id : Z)
    (date : string) (s s' : Store) (ks : list Z) :
  flush [AddBlogPost title subtitle body img_url author_id date] s = Some (s', ks) →
  (title ∉ map BlogPost.title (blog_posts s))
  ∧ s' = with_blog_posts
           (blog_posts s ++
            [BlogPost.mk (next_id (map BlogPost.id (blog_posts s))) author_id
               title subtitle date body img_url]) s.
Proof.
  cbn [flush flush_one]. case_bool_decide; [discriminate|]. now intros [= <- _].
Qed.

Lemma get_all_posts_run (st : State) :
  session_resolves st →
  get_all_posts st
  = (Ok (html "index.html" no_form false, args_all_posts (blog_posts (db st))), st).
Proof.
  intros Hres. unfold get_all_posts. run. rewrite render_template_run.
  pose proof (page_resolved st (html "index.html" no_form false) Hres) as Hpage.
  unfold page in Hpage. destruct (session_user_id st) as [uid|]; [|reflexivity].
  destruct (get_User (db st) uid); [reflexivity | discriminate Hpage].
Qed.

Lemma resolved_session (st : State) (uid : Z) (u : User.t) :
  session_user_id st = Some uid → get_User (db st) uid = Some u → session_resolves st.
Proof. intros Hsid Hget uid' Hsid'. rewrite Hsid in Hsid'. injection Hsid' as <-. now exists u. Qed.

(** ** More on creating a post *)

(** X5.  [add_new_post] never touches users, comments, the session or
    the mail relay.  For a caller without a session it flashes the
    login message and redirects to [login] whatever the form holds; a
    form that does not validate changes no table; and when the posts
    table changes at all it gains exactly one row, with the submitted
    title, today's date and the logged-in user as author. *)
Theorem add_new_post_frame
    (ext : Externals) (world : World) (request : Request) (st : State) :
  pending st = [] →
  let r := dispatch (add_new_post ext world request) st in
  users (db r.2) = users (db st)
  ∧ comments (db r.2) = comments (db st)
  ∧ session_user_id r.2 = session_user_id st
  ∧ smtp_log r.2 = smtp_log st
  ∧ (session_user_id st = None →
       r = (redirect (url_for "login" None),
            with_flashes (flashes st ++ [flash_login_required]) st))
  ∧ (PostForm.validate_on_submit (CreatePostForm ext None request) = false →
       db r.2 = db st)
  ∧ (blog_posts (db r.2) = blog_posts (db st)
     ∨ ∃ row, blog_posts (db r.2) = blog_posts (db st) ++ [row]
              ∧ BlogPost.title row = PostForm.title (CreatePostForm ext None request)
              ∧ BlogPost.date row = today world
              ∧ session_user_id st = Some (BlogPost.author_id row)).
Proof.
  destruct st as [s pend sid fl log]. cbn [pending]. intros ->. cbv zeta.
  unfold dispatch, add_new_post. exec.
  all: cbn [fst snd db users comments blog_posts session_user_id smtp_log].
  all: repeat apply conj; try reflexivity; try discriminate; try congruence.
  all: try (left; reflexivity).
  all: match goal with
       | H : flush _ _ = Some _ |- _ => apply flush_add_post_inv in H as [_ ->]
       end.
  all: try reflexivity.
  right. eexists. split; [reflexivity|]. cbn. repeat split.
  match goal with H : get_User _ _ = Some _ |- _ => apply get_User_spec in H as [_ ->] end.
  reflexivity.
Qed.

Lemma add_new_post_frame_witness :
  dispatch (add_new_post Sample.ext Sample.world Scenario.new_post)
    (Sample.state Sample.one_post None)
  = (redirect (url_for "login" None),
     with_flashes [flash_login_required] (Sample.state Sample.one_post None)).
Proof.
  pose proof (add_new_post_frame Sample.ext Sample.world Scenario.new_post
                (Sample.state Sample.one_post None) eq_refl) as H.
  cbv zeta in H. destruct H as (_ & _ & _ & _ & Hanon & _).
  exact (Hanon eq_refl).
Defined.

(** X6.  After a logged-in user has created a post with a title not yet
    stored, [db.get] finds the new row under a key no older post has,
    and [get_all_posts] lists the older posts in their order followed
    by the new one. *)
Theorem add_new_post_then_listed
    (ext : Externals) (world : World) (request : Request) (st : State)
    (uid : Z) (u : User.t) :
  session_user_id st = Some uid →
  get_User (db st) uid = Some u →
  pending st = [] →
  PostForm.validate_on_submit (CreatePostForm ext None request) = true →
  PostForm.title (CreatePostForm ext None request) ∉ map BlogPost.title (blog_posts (db st)) →
  let form := CreatePostForm ext None request in
  let row :=
    BlogPost.mk (next_id (map BlogPost.id (blog_posts (db st)))) uid
      (PostForm.title form) (PostForm.subtitle form) (today world)
      (PostForm.body form) (PostForm.img_url form) in
  let st' := (dispatch (add_new_post ext world request) st).2 in
  (dispatch (add_new_post ext world request) st).1 = redirect (url_for "get_all_posts" None)
  ∧ get_BlogPost (db st') (BlogPost.id row) = Some row
  ∧ (∀ p, p ∈ blog_posts (db st) → BlogPost.id p ≠ BlogPost.id row)
  ∧ get_all_posts st'
    = (Ok (html "index.html" no_form false, args_all_posts (blog_posts (db st) ++ [row])), st').
Proof.
  intros Hsid Huser Hpend Hvalid Hfree form row st'.
  pose proof (add_new_post_fresh ext world request st uid u Hsid Huser Hpend Hvalid Hfree)
    as Hrun.
  cbv zeta in Hrun. destruct (get_User_spec _ _ _ Huser) as [_ Huid]. rewrite Huid in Hrun.
  fold form in Hrun. fold row in Hrun. subst st'. rewrite Hrun. cbn [fst snd].
  assert (Hfresh : ∀ p, p ∈ blog_posts (db st) → BlogPost.id p ≠ BlogPost.id row).
  { intros p Hp Heq. apply (next_id_fresh (map BlogPost.id (blog_posts (db st)))).
    change (BlogPost.id row ∈ map BlogPost.id (blog_posts (db st))).
    rewrite <- Heq. apply list_elem_of_fmap. now exists p. }
  repeat apply conj; [reflexivity | | exact Hfresh |].
  - unfold get_BlogPost. cbn [db with_db blog_posts with_blog_posts].
    apply find_app_fresh; [|now apply bool_decide_eq_true].
    intros p Hp. apply bool_decide_eq_false. now apply Hfresh.
  - rewrite get_all_posts_run; [reflexivity|].
    apply (resolved_session _ uid u); [exact Hsid | exact Huser].
Qed.

Lemma add_new_post_then_listed_witness :
  get_all_posts
    (Sample.state (mkStore [Sample.user_a] [Sample.post_1; Scenario.second_post] []) (Some 1))
  = (Ok (html "index.html" no_form false,
         args_all_posts [Sample.post_1; Scenario.second_post]),
     Sample.state (mkStore [Sample.user_a] [Sample.post_1; Scenario.second_post] []) (Some 1)).
Proof.
  refine (proj2 (proj2 (proj2
            (add_new_post_then_listed Sample.ext Sample.world Scenario.new_post
               (Sample.state Sample.one_post (Some 1)) 1 Sample.user_a
               eq_refl eq_refl eq_refl eq_refl _)))).
  cbn. not_listed.
Defined.

(** ** Logging out *)

Lemma logout_run (st : State) :
  session_resolves st →
  dispatch logout st
  = (redirect (url_for "get_all_posts" None),
     with_pending [] (with_session_user_id None st)).
Proof.
  intros Hres. unfold dispatch, logout, logout_user, current_user, load_user, get_or_404.
  run. pose proof (Hres) as Hres'. unfold session_resolves in Hres'.
  destruct (session_user_id st) as [uid|] eqn:Hsid; run; [|reflexivity].
  destruct (Hres' uid eq_refl) as [u ->]. run. reflexivity.
Qed.

(** X7.  [logout], for a session that is absent or resolves: the
    session is cleared, the caller is redirected to the home route, the
    tables and flashes are as before; afterwards [current_user] is
    anonymous, every view under [admin_only] answers 403, and logging
    out again changes nothing. *)
Theorem logout_ends_the_session (st : State) :
  session_resolves st →
  let st' := (dispatch logout st).2 in
  dispatch logout st
  = (redirect (url_for "get_all_posts" None), with_pending [] (with_session_user_id None st))
  ∧ db st' = db st
  ∧ flashes st' = flashes st
  ∧ current_user st' = (Ok None, st')
  ∧ (∀ A (f : A → M Response) (args : A),
       dispatch (admin_only f args) st' = (error_page 403, st'))
  ∧ dispatch logout st' = (redirect (url_for "get_all_posts" None), st').
Proof.
  intros Hres st'. subst st'. rewrite (logout_run st Hres). cbn [snd].
  repeat apply conj; reflexivity.
Qed.

Lemma logout_ends_the_session_witness :
  dispatch logout (Sample.state Sample.one_post (Some 1))
  = (redirect (url_for "get_all_posts" None), Sample.state Sample.one_post None).
Proof.
  exact (proj1 (logout_ends_the_session (Sample.state Sample.one_post (Some 1)) resolved_one)).
Defined.

(** ** Showing a post and commenting on it *)

Section ShowPostRuns.
Context (request : Request) (CommentForm : Request → FlaskForm) (st : State).
Context (post_id : Z) (post : BlogPost.t).
Hypothesis Hpend : pending st = [].
Hypothesis Hpost : get_BlogPost (db st) post_id = Some post.

Lemma show_post_commented (uid : Z) (u : User.t) (text : string) :
  session_user_id st = Some uid →
  get_User (db st) uid = Some u →
  validates (CommentForm request) = true →
  form request !! "comment" = Some text →
  show_post request CommentForm post_id st
  = (Ok (html "post.html" (plain_form (CommentForm request)) false, args_post post),
     with_db
       (with_comments
          (comments (db st) ++
           [Comment.mk (next_id (map Comment.id (comments (db st)))) uid (Some post_id) text])
          (db st))
       st).
Proof.
  intros Hsid Huser Hvalid Htext.
  destruct (get_User_spec _ _ _ Huser) as [_ Huid].
  destruct (get_BlogPost_spec _ _ _ Hpost) as [_ Hpid].
  destruct st as [s pend sid fl log]. cbn in Hpend, Hpost, Hsid, Huser. subst pend sid.
  unfold show_post. exec; simplify_eq; try congruence.
  all: first [ reflexivity
             | exfalso; unfold get_User in *;
               cbn [users with_comments] in *; congruence ].
Qed.

End ShowPostRuns.

Lemma show_post_missing (request : Request) (CommentForm : Request → FlaskForm)
    (st : State) (post_id : Z) :
  get_BlogPost (db st) post_id = None →
  dispatch (response_of (show_post request CommentForm post_id)) st
  = (error_page (not_found post_id), with_pending [] st).
Proof.
  intros Hnone. unfold dispatch, response_of, show_post, get_or_404, not_found. run.
  rewrite Hnone. cbn [binds]. now destruct (sqlite_integer post_id).
Qed.

Lemma delete_post_missing (st : State) (uid : Z) (u : User.t) (post_id : Z) :
  session_user_id st = Some uid →
  get_User (db st) uid = Some u →
  get_BlogPost (db st) post_id = None →
  dispatch (delete_post post_id) st = (error_page (not_found post_id), with_pending [] st).
Proof.
  intros Hsid Huser Hnone. unfold dispatch, delete_post.
  rewrite (admin_only_authenticated _ _ _ uid u Hsid Huser).
  unfold delete_post_wrapped, get_or_404, not_found. run.
  rewrite Hnone. cbn [binds]. now destruct (sqlite_integer post_id).
Qed.

(** X8.  A logged-in user submitting a valid comment form on a stored
    post: one comment is appended under a fresh key, with that user as
    author, that post as parent and the submitted text; it is the last
    of [post.comments]; the comments of the other posts, the users and
    the posts are as before; and the page of the post is rendered. *)
Theorem show_post_stores_comment
    (request : Request) (CommentForm : Request → FlaskForm) (st : State)
    (post_id : Z) (post : BlogPost.t) (uid : Z) (u : User.t) (text : string) :
  pending st = [] →
  get_BlogPost (db st) post_id = Some post →
  session_user_id st = Some uid →
  get_User (db st) uid = Some u →
  validates (CommentForm request) = true →
  form request !! "comment" = Some text →
  let c := Comment.mk (next_id (map Comment.id (comments (db st)))) uid (Some post_id) text in
  let st' := with_db (with_comments (comments (db st) ++ [c]) (db st)) st in
  show_post request CommentForm post_id st
  = (Ok (html "post.html" (plain_form (CommentForm request)) false, args_post post), st')
  ∧ BlogPost_comments (db st') post = BlogPost_comments (db st) post ++ [c]
  ∧ (∀ q, BlogPost.id q ≠ post_id →
       BlogPost_comments (db st') q = BlogPost_comments (db st) q)
  ∧ (∀ c', c' ∈ comments (db st) → Comment.id c' ≠ Comment.id c)
  ∧ users (db st') = users (db st)
  ∧ blog_posts (db st') = blog_posts (db st).
Proof.
  intros Hpend Hpost Hsid Huser Hvalid Htext c st'.
  destruct (get_BlogPost_spec _ _ _ Hpost) as [_ Hpid].
  repeat apply conj; try reflexivity.
  - now apply show_post_commented with u.
  - unfold BlogPost_comments. cbn [st' db with_db comments with_comments].
    rewrite filter_app, filter_cons_True, filter_nil; [reflexivity|].
    unfold references. cbn. now rewrite Hpid.
  - intros q Hq. unfold BlogPost_comments. cbn [st' db with_db comments with_comments].
    rewrite filter_app, filter_cons_False, filter_nil; [now rewrite app_nil_r|].
    unfold references. cbn. congruence.
  - intros c' Hc' Heq. apply (next_id_fresh (map Comment.id (comments (db st)))).
    change (Comment.id c ∈ map Comment.id (comments (db st))).
    rewrite <- Heq. apply list_elem_of_fmap. now exists c'.
Qed.

Lemma show_post_stores_comment_witness :
  show_post Scenario.comment Scenario.comment_form 1 (Sample.state Sample.one_post (Some 1))
  = (Ok (html "post.html" (plain_form (Scenario.comment_form Scenario.comment)) false,
         args_post Sample.post_1),
     Sample.state Sample.commented (Some 1)).
Proof.
  exact (proj1 (show_post_stores_comment Scenario.comment Scenario.comment_form
                  (Sample.state Sample.one_post (Some 1)) 1 Sample.post_1 1 Sample.user_a
                  "Nice!" eq_refl eq_refl eq_refl eq_refl eq_refl eq_refl)).
Defined.

(** X9.  [show_post] changes the tables only for a stored post, a
    form that validates, a session and a [comment] field.  A missing
    post is answered whatever the session (the view is not gated): with
    404 when the id is one that sqlite can hold, and with 500 when it is
    2^63 or more, where the lookup raises [OverflowError].  A form that
    does not validate changes nothing; a valid form without a session
    is answered with the login flash and a redirect; a valid form of a
    logged-in user without the [comment] field is answered 400. *)
Theorem show_post_stores_nothing
    (request : Request) (CommentForm : Request → FlaskForm) (st : State) (post_id : Z) :
  pending st = [] →
  let r := dispatch (response_of (show_post request CommentForm post_id)) st in
  (db r.2 = db st
   ∨ (is_Some (get_BlogPost (db st) post_id)
      ∧ validates (CommentForm request) = true
      ∧ is_Some (session_user_id st)
      ∧ is_Some (form request !! "comment")))
  ∧ (get_BlogPost (db st) post_id = None →
     r = (error_page (if sqlite_integer post_id then 404 else 500), st))
  ∧ (validates (CommentForm request) = false → r.2 = st)
  ∧ (is_Some (get_BlogPost (db st) post_id) →
     validates (CommentForm request) = true →
     session_user_id st = None →
     r = (redirect (url_for "login" None),
          with_flashes (flashes st ++ [flash_login_required]) st))
  ∧ (is_Some (get_BlogPost (db st) post_id) →
     validates (CommentForm request) = true →
     ∀ uid, session_user_id st = Some uid → is_Some (get_User (db st) uid) →
     form request !! "comment" = None →
     r = (error_page 400, st)).
Proof.
  destruct st as [s pend sid fl log]. cbn [pending]. intros ->. cbv zeta.
  unfold dispatch, response_of, show_post.
  cbn [session_user_id db].
  exec; cbn [fst snd db]; repeat apply conj; intros; simplify_eq; try reflexivity;
    try congruence; try (left; reflexivity).
  all: try match goal with H : is_Some None |- _ => now destruct H end.
  all: try (right; repeat split; eauto).
  all: match goal with
       | H1 : get_User ?s ?u = None, H2 : is_Some (get_User ?s ?u) |- _ =>
           rewrite H1 in H2; now destruct H2
       end.
Qed.

Lemma show_post_stores_nothing_witness :
  dispatch (response_of (show_post Scenario.comment Scenario.comment_form 7))
    (Sample.state Sample.one_post None)
  = (error_page 404, Sample.state Sample.one_post None)
  ∧ dispatch (response_of (show_post Scenario.comment Scenario.comment_form beyond_rowid))
      (Sample.state Sample.one_post None)
    = (error_page 500, Sample.state Sample.one_post None).
Proof.
  split.
  - pose proof (show_post_stores_nothing Scenario.comment Scenario.comment_form
                  (Sample.state Sample.one_post None) 7 eq_refl) as H.
    cbv zeta in H. destruct H as (_ & Hmissing & _).
    exact (Hmissing eq_refl).
  - pose proof (show_post_stores_nothing Scenario.comment Scenario.comment_form
                  (Sample.state Sample.one_post None) beyond_rowid eq_refl) as H.
    cbv zeta in H. destruct H as (_ & Hmissing & _).
    exact (Hmissing eq_refl).
Defined.

(** ** More on deleting a post *)

(** X10.  After a post without comments has been deleted, [show_post]
    of its id is answered as a post that is not there, deleting it again
    is answered the same way and changes nothing, and [get_all_posts]
    lists the remaining posts in their order.  A post that is not there
    is answered 404; the tables of the model may carry keys that sqlite
    does not hold, and only for such a key is the answer 500. *)
Theorem delete_post_then_gone
    (request : Request) (CommentForm : Request → FlaskForm) (st : State)
    (uid : Z) (u : User.t) (post_id : Z) (post : BlogPost.t) :
  session_user_id st = Some uid →
  get_User (db st) uid = Some u →
  pending st = [] →
  get_BlogPost (db st) post_id = Some post →
  filter (references post_id) (comments (db st)) = [] →
  let st' := (dispatch (delete_post post_id) st).2 in
  dispatch (response_of (show_post request CommentForm post_id)) st'
  = (error_page (if sqlite_integer post_id then 404 else 500), st')
  ∧ dispatch (delete_post post_id) st'
    = (error_page (if sqlite_integer post_id then 404 else 500), st')
  ∧ get_all_posts st'
    = (Ok (html "index.html" no_form false,
           args_all_posts (filter (λ p, BlogPost.id p ≠ post_id) (blog_posts (db st)))),
       st').
Proof.
  intros Hsid Huser Hpend Hpost Hnone st'.
  assert (Hst' : st' = with_db (without_post post_id (db st)) st).
  { subst st'. now rewrite (delete_post_childless st uid u post_id post). }
  assert (Hgone : get_BlogPost (db st') post_id = None).
  { rewrite Hst'. cbn [db with_db]. rewrite get_BlogPost_without.
    now rewrite bool_decide_eq_true_2. }
  assert (Hpend' : with_pending [] st' = st').
  { rewrite Hst'. destruct st; cbn in *. now subst. }
  assert (Hsid' : session_user_id st' = Some uid) by now rewrite Hst'.
  assert (Huser' : get_User (db st') uid = Some u) by now rewrite Hst'.
  repeat apply conj.
  - rewrite (show_post_missing _ _ _ _ Hgone). now rewrite Hpend'.
  - rewrite (delete_post_missing st' uid u post_id Hsid' Huser' Hgone). now rewrite Hpend'.
  - rewrite get_all_posts_run; [now rewrite Hst'|].
    now apply (resolved_session _ uid u).
Qed.

Lemma delete_post_then_gone_witness :
  dispatch (delete_post 2) (Sample.state Sample.one_post (Some 1))
  = (error_page 404, Sample.state Sample.one_post (Some 1)).
Proof.
  exact (proj1 (proj2
           (delete_post_then_gone Sample.get Scenario.comment_form
              (Sample.state Sample.two_posts (Some 1)) 1 Sample.user_a 2 Sample.post_2
              eq_refl eq_refl eq_refl eq_refl eq_refl))).
Defined.

(** X11.  Once a logged-in user has commented on a post, [delete_post]
    of that post ends with status 500 and changes nothing: the post and
    its comment stay stored. *)
Theorem commented_post_cannot_be_deleted
    (request : Request) (CommentForm : Request → FlaskForm) (st : State)
    (post_id : Z) (post : BlogPost.t) (uid : Z) (u : User.t) (text : string) :
  pending st = [] →
  get_BlogPost (db st) post_id = Some post →
  session_user_id st = Some uid →
  get_User (db st) uid = Some u →
  validates (CommentForm request) = true →
  form request !! "comment" = Some text →
  let st1 := (dispatch (response_of (show_post request CommentForm post_id)) st).2 in
  dispatch (delete_post post_id) st1 = (error_page 500, st1)
  ∧ get_BlogPost (db st1) post_id = Some post
  ∧ BlogPost_comments (db st1) post ≠ [].
Proof.
  intros Hpend Hpost Hsid Huser Hvalid Htext st1.
  destruct (get_BlogPost_spec _ _ _ Hpost) as [_ Hpid].
  assert (Hst1 : st1 = with_db
                         (with_comments
                            (comments (db st) ++
                             [Comment.mk (next_id (map Comment.id (comments (db st))))
                                uid (Some post_id) text])
                            (db st)) st).
  { subst st1. unfold dispatch, response_of. run.
    rewrite (show_post_commented request CommentForm st post_id post Hpend Hpost
               uid u text Hsid Huser Hvalid Htext).
    run. cbn [snd fst]. destruct st; cbn in *. now subst. }
  assert (Hchild : filter (references post_id) (comments (db st1)) ≠ []).
  { rewrite Hst1. cbn [db with_db comments with_comments].
    rewrite filter_app, filter_cons_True by reflexivity.
    intros Heq. apply app_eq_nil in Heq as [_ Heq]. discriminate Heq. }
  repeat apply conj.
  - rewrite Hst1 in Hchild |- *.
    apply delete_post_refused with uid u post;
      cbn [session_user_id db pending with_db users blog_posts with_comments] in *;
      assumption.
  - now rewrite Hst1.
  - unfold BlogPost_comments. now rewrite Hpid.
Qed.

Lemma commented_post_cannot_be_deleted_witness :
  dispatch (delete_post 1) (Sample.state Sample.commented (Some 1))
  = (error_page 500, Sample.state Sample.commented (Some 1)).
Proof.
  exact (proj1
           (commented_post_cannot_be_deleted Scenario.comment Scenario.comment_form
              (Sample.state Sample.one_post (Some 1)) 1 Sample.post_1 1 Sample.user_a "Nice!"
              eq_refl eq_refl eq_refl eq_refl eq_refl eq_refl)).
Defined.

(** ** More on registration and login *)

Lemma select_User_by_email_found (s : Store) (e : string) (u : User.t) :
  select_User_by_email s e = Some u → u ∈ users s ∧ User.email u = e.
Proof.
  unfold select_User_by_email. intros H. apply find_some in H as [Hin He].
  split; [now apply list_elem_of_In | now apply bool_decide_eq_true in He].
Qed.

(** X12.  If [check_password_hash] accepts the hash that
    [generate_password_hash] made of a password, then whoever registers
    with a new email and that password, and logs out, can log in with
    the same email and password: the session is set to the registered
    row and [current_user] resolves it. *)
Theorem register_then_login
    (ext : Externals) (world : World) (request request' : Request) (st : State)
    (email password name : string) :
  method request = POST →
  form request !! "email" = Some email →
  form request !! "password" = Some password →
  form request !! "name" = Some name →
  pending st = [] →
  unique_emails (db st) →
  (∀ u, u ∈ users (db st) → User.email u ≠ email) →
  check_password_hash ext
    (generate_password_hash ext password "pbkdf2" 8 (urandom world)) password = true →
  method request' = POST →
  form request' !! "email" = Some email →
  form request' !! "password" = Some password →
  let row := new_user ext world st email password name in
  let st1 := (dispatch (register ext world request) st).2 in
  let st2 := (dispatch logout st1).2 in
  session_user_id st2 = None
  ∧ dispatch (login ext request') st2
    = (redirect (url_for "get_all_posts" None), with_session_user_id (Some (User.id row)) st2)
  ∧ current_user (dispatch (login ext request') st2).2
    = (Ok (Some row), (dispatch (login ext request') st2).2).
Proof.
  intros Hmethod Hemail Hpassword Hname Hpend Huniq Hfresh Hcheck Hmethod' Hemail' Hpassword'
    row st1 st2.
  assert (Hsel : select_User_by_email (db st) email = None).
  { apply select_User_by_email_None. intros Hin.
    apply list_elem_of_fmap in Hin as (u & Heq & Hu). now apply (Hfresh u Hu). }
  assert (Hst1 : st1 = registered ext world st email password name).
  { subst st1. unfold dispatch.
    now rewrite (register_fresh ext world request st email password name
                   Hmethod Hemail Hpassword Hname Hpend Hsel). }
  assert (Hst2 : st2 = with_session_user_id None st1).
  { subst st2. rewrite logout_run.
    - rewrite Hst1. reflexivity.
    - rewrite Hst1. intros uid Hsid. injection Hsid as <-. exists row.
      pose proof (registered_current_user ext world st email password name) as Hcu.
      unfold current_user, load_user, get_or_404 in Hcu. revert Hcu. run.
      cbn [session_user_id registered]. run.
      destruct (get_User _ _) as [u|]; run; [now intros [= ->] | discriminate]. }
  assert (Hrow : select_User_by_email (db st2) email = Some row).
  { rewrite Hst2, Hst1. cbn [db with_session_user_id].
    change email with (User.email row). apply unique_select.
    - now apply registered_unique.
    - cbn [registered db users with_users]. apply elem_of_app. right. apply list_elem_of_here. }
  assert (Hlogin : dispatch (login ext request') st2
                   = (redirect (url_for "get_all_posts" None),
                      with_session_user_id (Some (User.id row)) st2)).
  { unfold dispatch.
    rewrite (login_verified ext request' st2 email password Hmethod' Hemail' Hpassword'
               row Hrow Hcheck).
    f_equal. rewrite Hst2, Hst1. reflexivity. }
  repeat apply conj.
  - now rewrite Hst2.
  - exact Hlogin.
  - rewrite Hlogin. cbn [snd]. rewrite Hst2, Hst1.
    apply (registered_current_user ext world st email password name).
Qed.

Lemma register_then_login_witness :
  dispatch (login Sample.ext (Scenario.credentials "pw2")) (Sample.state Scenario.with_b None)
  = (redirect (url_for "get_all_posts" None), Sample.state Scenario.with_b (Some 2)).
Proof.
  refine (proj1 (proj2
            (register_then_login Sample.ext Sample.world
               (Scenario.credentials "pw2") (Scenario.credentials "pw2")
               (Sample.state Sample.one_post None) "b@x.com" "pw2" "B"
               eq_refl eq_refl eq_refl eq_refl eq_refl _ fresh_email_b
               eq_refl eq_refl eq_refl eq_refl))).
  by_computation.
Defined.



(** X14.  A POST to [register] that lacks the email, name or password
    field never changes the tables or the session.  Without the email
    field it is answered 400; with an email no stored user has and
    without the name or the password it is answered 400 as well. *)
Theorem register_missing_field
    (ext : Externals) (world : World) (request : Request) (st : State) :
  method request = POST →
  pending st = [] →
  (form request !! "email" = None ∨ form request !! "name" = None
   ∨ form request !! "password" = None) →
  db (dispatch (register ext world request) st).2 = db st
  ∧ session_user_id (dispatch (register ext world request) st).2 = session_user_id st
  ∧ (form request !! "email" = None →
       dispatch (register ext world request) st = (error_page 400, st))
  ∧ (∀ email, form request !! "email" = Some email →
       (∀ u, u ∈ users (db st) → User.email u ≠ email) →
       dispatch (register ext world request) st = (error_page 400, st)).
Proof.
  destruct st as [s pend sid fl log]. cbn [pending]. intros Hmethod -> Hmissing.
  unfold dispatch, register. rewrite Hmethod.
  exec; cbn [fst snd db session_user_id]; repeat apply conj; intros; simplify_eq;
    try reflexivity; try congruence.
  all: try (destruct Hmissing as [?|[?|?]]; congruence).
  exfalso.
  match goal with
  | H : select_User_by_email _ _ = Some _, Hf : ∀ u, u ∈ _ → _ ≠ _ |- _ =>
      apply select_User_by_email_found in H as [Hin Heq]; now destruct (Hf _ Hin)
  end.
Qed.

Lemma register_missing_field_witness :
  dispatch (register Sample.ext Sample.world (Sample.post [("email", "b@x.com")]))
    (Sample.state Sample.one_post None)
  = (error_page 400, Sample.state Sample.one_post None).
Proof.
  refine (proj2 (proj2 (proj2
            (register_missing_field Sample.ext Sample.world (Sample.post [("email", "b@x.com")])
               (Sample.state Sample.one_post None) eq_refl eq_refl _)))
            "b@x.com" eq_refl fresh_email_b).
  right. left. reflexivity.
Defined.

(** ** More on the contact form *)

(** X15.  A POST to [contact] that lacks the name, phone or message
    field, with a relay that accepts the connection, STARTTLS and the
    login: the operator has logged in to the relay before the field is
    missed, no mail is sent, and QUIT closes the conversation.  The
    request is answered 400 when the relay answers QUIT as it should;
    when it does not, the exception of the closing takes the place of
    the missing field and the request is answered 500. *)
Theorem contact_missing_field
    (ext : Externals) (world : World) (request : Request) (st : State) :
  method request = POST →
  pending st = [] →
  (form request !! "name" = None ∨ form request !! "phone" = None
   ∨ form request !! "message" = None) →
  relay_accepts world (SMTP_connect "smtp.gmail.com" 587) = true →
  relay_accepts world SMTP_starttls = true →
  relay_accepts world (SMTP_login (my_email ext) (my_pass ext)) = true →
  dispatch (contact ext world request) st
  = (error_page (if relay_accepts world SMTP_quit then 400 else 500),
     with_smtp_log
       (smtp_log st ++
        [SMTP_connect "smtp.gmail.com" 587; SMTP_starttls;
         SMTP_login (my_email ext) (my_pass ext); SMTP_quit])
       st).
Proof.
  destruct st as [s pend sid fl log]. cbn [pending].
  intros Hmethod -> Hmissing Hconnect Htls Hlogin.
  unfold dispatch, contact. rewrite Hmethod. run.
  unfold with_SMTP, sendmail, smtp. rewrite Hconnect. run. rewrite Htls. run. rewrite Hlogin.
  unfold request_form.
  destruct (form request !! "name"); run;
    [destruct (form request !! "phone"); run;
     [destruct (form request !! "message"); run|]|].
  1: { exfalso. destruct Hmissing as [?|[?|?]]; discriminate. }
  all: destruct (relay_accepts world SMTP_quit); cbn; rewrite <- !app_assoc; reflexivity.
Qed.

Lemma contact_missing_field_witness :
  dispatch (contact Sample.ext Sample.world short_contact_request)
    (Sample.state Sample.empty_db None)
  = (error_page 400,
     with_smtp_log
       [SMTP_connect "smtp.gmail.com" 587; SMTP_starttls;
        SMTP_login "owner@x.com" "app-token"; SMTP_quit]
       (Sample.state Sample.empty_db None))
  ∧ dispatch (contact Sample.ext lingering_world short_contact_request)
      (Sample.state Sample.empty_db None)
    = (error_page 500,
       with_smtp_log
         [SMTP_connect "smtp.gmail.com" 587; SMTP_starttls;
          SMTP_login "owner@x.com" "app-token"; SMTP_quit]
         (Sample.state Sample.empty_db None)).
Proof.
  split.
  - refine (contact_missing_field Sample.ext Sample.world short_contact_request
              (Sample.state Sample.empty_db None) eq_refl eq_refl _ eq_refl eq_refl eq_refl).
    right. right. reflexivity.
  - refine (contact_missing_field Sample.ext lingering_world short_contact_request
              (Sample.state Sample.empty_db None) eq_refl eq_refl _ eq_refl eq_refl eq_refl).
    right. right. reflexivity.
Defined.

(** ** Requests that only read *)

(** X16.  A GET to [register], [login], [contact], [about] or the
    listing changes nothing at all (tables, session, flashes, relay),
    and for a session that is absent or resolves the first four answer
    with their template. *)
Theorem get_changes_nothing
    (ext : Externals) (world : World) (request : Request) (st : State) :
  method request = GET →
  pending st = [] →
  (dispatch (register ext world request) st).2 = st
  ∧ (dispatch (login ext request) st).2 = st
  ∧ (dispatch (contact ext world request) st).2 = st
  ∧ (dispatch about st).2 = st
  ∧ (dispatch (response_of get_all_posts) st).2 = st
  ∧ (session_resolves st →
       dispatch (register ext world request) st
       = (html "register.html" (plain_form (RegisterUser ext request)) false, st)
       ∧ dispatch (login ext request) st
         = (html "login.html" (plain_form (LoginUser ext request)) false, st)
       ∧ dispatch (contact ext world request) st = (html "contact.html" no_form false, st)
       ∧ dispatch about st = (html "about.html" no_form false, st)).
Proof.
  destruct st as [s pend sid fl log]. cbn [pending]. intros Hmethod ->.
  unfold dispatch, register, login, contact, about, response_of, get_all_posts,
    session_resolves.
  rewrite Hmethod. cbn [session_user_id db].
  repeat apply conj; try (exec; reflexivity).
  intros Hres. destruct sid as [uid|].
  - destruct (Hres uid eq_refl) as [u Hu]. exec; simplify_eq. repeat split.
  - exec. repeat split.
Qed.

Lemma get_changes_nothing_witness :
  dispatch (register Sample.ext Sample.world Sample.get) (Sample.state Sample.one_post (Some 1))
  = (html "register.html" (plain_form (RegisterUser Sample.ext Sample.get)) false,
     Sample.state Sample.one_post (Some 1)).
Proof.
  pose proof (get_changes_nothing Sample.ext Sample.world Sample.get
                (Sample.state Sample.one_post (Some 1)) eq_refl eq_refl) as H.
  destruct H as (_ & _ & _ & _ & _ & Hpages).
  exact (proj1 (Hpages resolved_one)).
Defined.

(** ** More on editing a post *)

Lemma flush_edit_inv (pk uid : Z) (f : PostForm.t) (s s' : Store) (ks : list Z) :
  flush (edit_changes pk uid f) s = Some (s', ks) → s' = update_post pk (edited uid f) s.
Proof.
  destruct (decide (PostForm.title f ∈ other_titles s pk)) as [Hin|Hout].
  - unfold edit_changes. cbn [flush flush_one]. fold (other_titles s pk).
    now rewrite bool_decide_eq_true_2.
  - rewrite (flush_edit pk uid f s Hout). now intros [= <- _].
Qed.

(** X17.  [edit_post], on every request and state: the users and
    comments tables, the keys and dates of all posts, every post other
    than the one named, the session, the flashes and the relay are as
    before. *)
Theorem edit_post_frame (ext : Externals) (request : Request) (post_id : Z) (st : State) :
  pending st = [] →
  let st' := (dispatch (edit_post ext request post_id) st).2 in
  users (db st') = users (db st)
  ∧ comments (db st') = comments (db st)
  ∧ map BlogPost.id (blog_posts (db st')) = map BlogPost.id (blog_posts (db st))
  ∧ map BlogPost.date (blog_posts (db st')) = map BlogPost.date (blog_posts (db st))
  ∧ (∀ q, q ≠ post_id → get_BlogPost (db st') q = get_BlogPost (db st) q)
  ∧ session_user_id st' = session_user_id st
  ∧ flashes st' = flashes st
  ∧ smtp_log st' = smtp_log st.
Proof.
  destruct st as [s pend sid fl log]. cbn [pending]. intros ->. cbv zeta.
  unfold dispatch, edit_post, edit_post_wrapped. exec.
  all: cbn [fst snd db session_user_id flashes smtp_log].
  all: try (repeat apply conj; reflexivity).
  all: match goal with
       | H : flush [SetPostAttr ?pk BlogPost.Title (PostForm.title ?f); _; _;
                    SetPostAuthor _ ?uid; _] ?s0 = Some _ |- _ =>
           apply (flush_edit_inv pk uid f) in H; subst;
           destruct (update_post_tables pk (edited uid f) s0) as (Hu & Hc & Hp)
       end.
  all: repeat apply conj; try assumption; try reflexivity.
  all: try (rewrite Hp; now apply update_keeps_column).
  all: intros q Hq; rewrite get_BlogPost_update by reflexivity;
       now rewrite bool_decide_eq_false_2.
Qed.

Lemma edit_post_frame_witness :
  map BlogPost.date
    (blog_posts (db (dispatch (edit_post Sample.ext Scenario.keep_title 2)
                       (Sample.state Sample.two_posts (Some 1))).2))
  = ["April 03, 2025"; "April 04, 2025"].
Proof.
  pose proof (edit_post_frame Sample.ext Scenario.keep_title 2
                (Sample.state Sample.two_posts (Some 1)) eq_refl) as H.
  cbv zeta in H. destruct H as (_ & _ & _ & Hdates & _).
  exact Hdates.
Defined.

(** X18.  In tables that satisfy the constraints, a valid edit that
    keeps the title of the post is always written: the title check only
    looks at the other posts. *)
Theorem edit_post_keeping_title
    (ext : Externals) (request : Request) (st : State)
    (uid : Z) (u : User.t) (post_id : Z) (post : BlogPost.t) :
  session_user_id st = Some uid →
  get_User (db st) uid = Some u →
  pending st = [] →
  constraints (db st) →
  get_BlogPost (db st) post_id = Some post →
  PostForm.validate_on_submit (CreatePostForm ext (Some post) request) = true →
  PostForm.title (CreatePostForm ext (Some post) request) = BlogPost.title post →
  dispatch (edit_post ext request post_id) st
  = (redirect (url_for "show_post" (Some post_id)),
     with_db (update_post post_id (edited uid (CreatePostForm ext (Some post) request)) (db st))
       st).
Proof.
  intros Hsid Huser Hpend [_ _ Hkeys Htitles _] Hpost Hvalid Hsame.
  destruct (get_User_spec _ _ _ Huser) as [_ Huid].
  destruct (get_BlogPost_spec _ _ _ Hpost) as [Hin Hpid].
  assert (Hfree : PostForm.title (CreatePostForm ext (Some post) request)
                  ∉ other_titles (db st) post_id).
  { rewrite Hsame. unfold other_titles. unfold unique_titles in Htitles.
    clear - Hkeys Htitles Hin Hpid.
    induction (blog_posts (db st)) as [|p ps IH]; [inversion Hin|].
    cbn [map] in Hkeys, Htitles.
    apply NoDup_cons in Hkeys as [Hk Hkeys]. apply NoDup_cons in Htitles as [Ht Htitles].
    apply elem_of_cons in Hin as [->|Hin].
    - rewrite filter_cons_False by (intros Hne; now apply Hne).
      intros Hx. apply Ht. apply list_elem_of_fmap in Hx as (q & -> & Hq).
      apply list_elem_of_filter in Hq as [_ Hq]. apply list_elem_of_fmap. now exists q.
    - destruct (decide (BlogPost.id p = post_id)) as [Hp|Hp].
      + exfalso. apply Hk. rewrite Hp, <- Hpid. apply list_elem_of_fmap. now exists post.
      + rewrite filter_cons_True by exact Hp. cbn [map]. apply not_elem_of_cons. split.
        * intros Heq. apply Ht. rewrite <- Heq. apply list_elem_of_fmap. now exists post.
        * now apply IH. }
  unfold dispatch.
  rewrite (edit_post_commit ext request st uid u post_id post Hsid Huser Hpend Hpost Hvalid).
  cbv zeta. rewrite Huid, (flush_edit post_id uid _ (db st) Hfree), Hpid.
  f_equal. destruct st; cbn in *. now subst.
Qed.

Lemma edit_post_keeping_title_witness :
  dispatch (edit_post Sample.ext Scenario.keep_title 2) (Sample.state Sample.two_posts (Some 1))
  = (redirect (url_for "show_post" (Some 2)),
     Sample.state
       (mkStore [Sample.user_a]
          [Sample.post_1;
           BlogPost.mk 2 1 "Second" "new" "April 04, 2025" "new body" "http://x/new.png"] [])
       (Some 1)).
Proof.
  exact (edit_post_keeping_title Sample.ext Scenario.keep_title
           (Sample.state Sample.two_posts (Some 1)) 1 Sample.user_a 2 Sample.post_2
           eq_refl eq_refl eq_refl two_posts_constraints eq_refl eq_refl eq_refl).
Defined.

(** ** Methods the URL map does not list *)

(** X19.  A POST to a rule of the URL map that lists no methods (the
    listing, [logout], [about], [delete_post]) is answered 405 before
    any view runs; in particular a POST to [/delete/<id>] deletes
    nothing. *)
Theorem method_not_allowed
    (ext : Externals) (CommentForm : Request → FlaskForm)
    (world : World) (request : Request) (e : Endpoint) (st : State) :
  method request = POST →
  pending st = [] →
  (e = at_get_all_posts ∨ e = at_logout ∨ e = at_about ∨ ∃ post_id, e = at_delete_post post_id) →
  full_dispatch_request ext CommentForm world request e st = (error_page 405, st).
Proof.
  destruct st as [s pend sid fl log]. cbn [pending]. intros Hmethod -> He.
  unfold full_dispatch_request. rewrite Hmethod.
  destruct He as [->|[->|[->|[pid ->]]]]; reflexivity.
Qed.

Lemma method_not_allowed_witness :
  full_dispatch_request Sample.ext Scenario.comment_form Sample.world (Sample.post [])
    (at_delete_post 1) (Sample.state Sample.one_post (Some 1))
  = (error_page 405, Sample.state Sample.one_post (Some 1)).
Proof.
  apply method_not_allowed; [reflexivity | reflexivity |].
  right. right. right. now exists 1%N.
Defined.
